(** * lib/meta.py: version strings of a MyPaint build

    A shallow embedding of [lib/meta.py] (Python 2).  Python's [str] is a
    byte string and is modelled by [string]; the dictionary filled by
    [exec] and the groups of a regular-expression match are finite maps;
    an exception raised by the code is a value of [exn]; what the code
    prints on standard error is returned next to the outcome.

    The things the function reads from its surroundings (the file
    [release_info], the directory [.git], the output of [git describe])
    are the fields of an explicit environment. *)

From Stdlib Require Import String Ascii ZArith Lia.
From stdpp Require Import gmap strings pretty.

(** ** Python runtime primitives used by the module *)

Module Py.

(** Characters that a Rocq string literal cannot hold as they are. *)
Definition DQUOTE : ascii := "034"%char.
Definition SQUOTE : ascii := "039"%char.
Definition BACKSLASH : ascii := "092"%char.
Definition TAB : ascii := "009"%char.
Definition LF : ascii := "010"%char.
Definition CR : ascii := "013"%char.

Definition ord (c : ascii) : nat := nat_of_ascii c.
Definition chr (n : nat) : ascii := ascii_of_nat n.

Definition in_range (lo hi : nat) (c : ascii) : bool :=
  (lo <=? ord c) && (ord c <=? hi).

(** [str.isspace] of a byte in the C locale. *)
Definition isspace (c : ascii) : bool :=
  in_range 9 13 c || (ord c =? 32).

Definition isdigit (c : ascii) : bool := in_range 48 57 c.
Definition isupper (c : ascii) : bool := in_range 65 90 c.
Definition islower (c : ascii) : bool := in_range 97 122 c.

(** [s.lstrip()], [s.rstrip()], [s.strip()]. *)
Fixpoint lstrip (s : string) : string :=
  match s with
  | EmptyString => EmptyString
  | String c s' => if isspace c then lstrip s' else s
  end.

Fixpoint rstrip (s : string) : string :=
  match s with
  | EmptyString => EmptyString
  | String c s' =>
      match rstrip s' with
      | EmptyString => if isspace c then EmptyString else String c EmptyString
      | r => String c r
      end
  end.

Definition strip (s : string) : string := rstrip (lstrip s).

(** [s.startswith(x)] and [x in s] on byte strings. *)
Definition startswith (s x : string) : bool := String.prefix x s.

Fixpoint contains (s x : string) : bool :=
  startswith s x ||
  match s with
  | EmptyString => false
  | String _ s' => contains s' x
  end.

Fixpoint endswith (s x : string) : bool :=
  String.eqb s x ||
  match s with
  | EmptyString => false
  | String _ s' => endswith s' x
  end.

(** [sep.join(l)]. *)
Fixpoint join (sep : string) (l : list string) : string :=
  match l with
  | [] => ""
  | [x] => x
  | x :: l' => x +:+ sep +:+ join sep l'
  end.

(** Truth value of [None] or a [str]. *)
Definition truthy (o : option string) : bool :=
  match o with
  | None | Some EmptyString => false
  | Some _ => true
  end.

(** The values [nrevs] takes: [None], a [str] or an [int]. *)
Inductive value :=
| VNone
| VStr (s : string)
| VInt (z : Z).

Definition of_group (o : option string) : value :=
  match o with
  | None => VNone
  | Some s => VStr s
  end.

Definition truth (v : value) : bool :=
  match v with
  | VNone => false
  | VStr s => negb (String.eqb s "")
  | VInt z => negb (z =? 0)%Z
  end.

(** ["%s" % v]. *)
Definition format_s (v : value) : string :=
  match v with
  | VNone => "None"
  | VStr s => s
  | VInt z => pretty z
  end.

Definition digit_value (c : ascii) : Z := Z.of_nat (ord c - 48).

Fixpoint int_digits (acc : Z) (s : string) : option Z :=
  match s with
  | EmptyString => Some acc
  | String c s' =>
      if isdigit c then int_digits (10 * acc + digit_value c) s' else None
  end.

(** [int(v)].  For a [str] only the form that group 1 of the parse
    pattern can capture is modelled, a non-empty run of decimal digits;
    [None] stands for the exception [int] raises on other arguments. *)
Definition int (v : value) : option Z :=
  match v with
  | VNone => None
  | VStr EmptyString => None
  | VStr s => int_digits 0 s
  | VInt z => Some z
  end.

(** *** [repr] of a [str] (CPython 2 [PyString_Repr]) *)

Definition has_char (c : ascii) (s : string) : bool :=
  contains s (String c "").

(** Single quotes are preferred; double quotes are used when the
    string holds a single quote and no double quote. *)
Definition repr_quote (s : string) : ascii :=
  if has_char SQUOTE s && negb (has_char DQUOTE s) then DQUOTE else SQUOTE.

Definition hex_digit (n : nat) : ascii :=
  if n <? 10 then chr (48 + n) else chr (87 + n).

Definition repr_char (quote c : ascii) : string :=
  if Ascii.eqb c quote || Ascii.eqb c BACKSLASH then
    String BACKSLASH (String c "")
  else if Ascii.eqb c TAB then String BACKSLASH "t"
  else if Ascii.eqb c LF then String BACKSLASH "n"
  else if Ascii.eqb c CR then String BACKSLASH "r"
  else if (ord c <? 32) || (127 <=? ord c) then
    String BACKSLASH
      (String "x" (String (hex_digit (ord c / 16))
                     (String (hex_digit (ord c mod 16)) "")))
  else String c "".

Fixpoint repr_body (quote : ascii) (s : string) : string :=
  match s with
  | EmptyString => ""
  | String c s' => repr_char quote c +:+ repr_body quote s'
  end.

Definition repr (s : string) : string :=
  let q := repr_quote s in
  String q (repr_body q s +:+ String q "").

(** The strings [repr] leaves as they are between single quotes:
    printable ASCII characters other than the backslash and the single
    quote. *)
Definition plain_char (c : ascii) : bool :=
  (32 <=? ord c) && (ord c <? 127)
  && negb (Ascii.eqb c BACKSLASH) && negb (Ascii.eqb c SQUOTE).

Fixpoint plain (s : string) : bool :=
  match s with
  | EmptyString => true
  | String c s' => plain_char c && plain s'
  end.

(** *** [exec] of a file of assignments

    [exec f in d] runs the statements of [f] with [d] as its name
    space.  The fragment modelled is the one the module itself writes:
    lines [NAME='literal'] or [NAME="literal"], each ended by a line
    feed, with [NAME] made of capital letters, digits and underscores
    and the literal a plain (not raw, not triple-quoted) string
    literal.  On such a file Python binds each name to the value of its
    literal, in order, and does nothing else.

    [None] stands for every other file, and says nothing about what
    Python does with it: Python runs many of them (blanks around [=],
    comments, any other statement), and what such code binds may depend
    on the surroundings it reads.  The model follows the files of the
    fragment only. *)

Definition hex_value (c : ascii) : option nat :=
  if isdigit c then Some (ord c - 48)
  else if in_range 97 102 c then Some (ord c - 87)
  else if in_range 65 70 c then Some (ord c - 55)
  else None.

Definition oct_value (c : ascii) : option nat :=
  if in_range 48 55 c then Some (ord c - 48) else None.

Definition cons_value (c : ascii) (r : option (string * string))
  : option (string * string) :=
  match r with
  | Some (v, rest) => Some (String c v, rest)
  | None => None
  end.

(** The body of a string literal opened by [quote]: the decoded value
    and the text after the closing quote (escapes as in CPython 2
    [PyString_DecodeEscape]). *)
Fixpoint literal_body (quote : ascii) (s : string)
  : option (string * string) :=
  match s with
  | EmptyString => None
  | String c s1 =>
      if Ascii.eqb c quote then Some ("", s1)
      else if Ascii.eqb c LF || (128 <=? ord c) then None
      else if Ascii.eqb c BACKSLASH then
        match s1 with
        | EmptyString => None
        | String e s2 =>
            if Ascii.eqb e LF then literal_body quote s2
            else if Ascii.eqb e BACKSLASH || Ascii.eqb e SQUOTE
                    || Ascii.eqb e DQUOTE
            then cons_value e (literal_body quote s2)
            else if Ascii.eqb e "b" then cons_value (chr 8) (literal_body quote s2)
            else if Ascii.eqb e "f" then cons_value (chr 12) (literal_body quote s2)
            else if Ascii.eqb e "t" then cons_value TAB (literal_body quote s2)
            else if Ascii.eqb e "n" then cons_value LF (literal_body quote s2)
            else if Ascii.eqb e "r" then cons_value CR (literal_body quote s2)
            else if Ascii.eqb e "v" then cons_value (chr 11) (literal_body quote s2)
            else if Ascii.eqb e "a" then cons_value (chr 7) (literal_body quote s2)
            else if Ascii.eqb e "x" then
              match s2 with
              | String h1 (String h2 s3) =>
                  match hex_value h1, hex_value h2 with
                  | Some a, Some b =>
                      cons_value (chr (16 * a + b)) (literal_body quote s3)
                  | _, _ => None
                  end
              | _ => None
              end
            else
              match oct_value e with
              | Some a =>
                  match s2 with
                  | String o2 s3 =>
                      match oct_value o2 with
                      | Some b =>
                          match s3 with
                          | String o3 s4 =>
                              match oct_value o3 with
                              | Some d =>
                                  cons_value (chr ((64 * a + 8 * b + d) mod 256))
                                    (literal_body quote s4)
                              | None =>
                                  cons_value (chr (8 * a + b))
                                    (literal_body quote s3)
                              end
                          | EmptyString => None
                          end
                      | None => cons_value (chr a) (literal_body quote s2)
                      end
                  | EmptyString => None
                  end
              | None =>
                  if 128 <=? ord e then None
                  else cons_value BACKSLASH
                         (cons_value e (literal_body quote s2))
              end
        end
      else cons_value c (literal_body quote s1)
  end.

(** A string literal at the head of [s]. *)
Definition string_literal (s : string) : option (string * string) :=
  match s with
  | String q s1 =>
      if Ascii.eqb q SQUOTE || Ascii.eqb q DQUOTE then
        match s1 with
        | String q1 (String q2 _) =>
            if Ascii.eqb q1 q && Ascii.eqb q2 q then None
            else literal_body q s1
        | _ => literal_body q s1
        end
      else None
  | EmptyString => None
  end.

Definition name_start (c : ascii) : bool := isupper c.
Definition name_char (c : ascii) : bool :=
  isupper c || isdigit c || Ascii.eqb c "_".

(** The longest run of name characters at the head of [s], and the
    rest. *)
Fixpoint name_chars (s : string) : string * string :=
  match s with
  | String c s' =>
      if name_char c then
        let '(n, rest) := name_chars s' in (String c n, rest)
      else ("", s)
  | EmptyString => ("", "")
  end.

(** One line [NAME=literal] and the text after its line feed. *)
Definition assignment (s : string) : option (string * string * string) :=
  match s with
  | String c _ =>
      if name_start c then
        match name_chars s with
        | (name, String "=" s1) =>
            match string_literal s1 with
            | Some (v, String nl rest) =>
                if Ascii.eqb nl LF then Some (name, v, rest) else None
            | _ => None
            end
        | _ => None
        end
      else None
  | EmptyString => None
  end.

(** The statements are run in order; [fuel] bounds their number. *)
Fixpoint exec_lines (fuel : nat) (s : string) (d : gmap string string)
  : option (gmap string string) :=
  match s with
  | EmptyString => Some d
  | _ =>
      match fuel with
      | O => None
      | S fuel' =>
          match assignment s with
          | Some (name, v, rest) => exec_lines fuel' rest (<[name := v]> d)
          | None => None
          end
      end
  end.

(** [exec f in d]: every statement takes at least one byte, so the
    length of the file is fuel enough. *)
Definition exec (file : string) (d : gmap string string)
  : option (gmap string string) :=
  exec_lines (String.length file) file d.

(** [d.get(key, default)]. *)
Definition get (d : gmap string string) (key default : string) : string :=
  match d !! key with
  | Some v => v
  | None => default
  end.

End Py.

(** ** The regular expressions of the module

    The two patterns are compiled with [re.VERBOSE | re.IGNORECASE].
    [re.VERBOSE] only changes how the pattern text is read (blanks and
    [#] comments are dropped, and what [re.escape] produces stands for
    the escaped text itself), so a pattern is given here by its syntax
    tree.  The matcher is the backtracking matcher of [re]: alternatives
    are tried in priority order, a repetition is greedy, and the first
    way to succeed is the match. *)

Module Sre.

(** One-character items. *)
Inductive atom :=
| ALit (c : ascii)                     (* a literal character *)
| ADigit                               (* \d *)
| ASet (ranges : list (ascii * ascii)) (* [a-bc-d...] *).

Inductive regex :=
| REmpty
| RAtom (a : atom)
| RRepeat (lo : nat) (a : atom)        (* a{lo,}, greedy; a+ is a{1,} *)
| RSeq (r1 r2 : regex)
| ROpt (r : regex)                     (* (?:r)?, greedy *)
| RGroup (i : nat) (r : regex)         (* (r), group number i *)
| RBol                                 (* ^ *)
| REol                                 (* $ *).

(** [sre_lower]: lower case of an ASCII letter. *)
Definition lower (c : ascii) : ascii :=
  if Py.isupper c then Py.chr (Py.ord c + 32) else c.

Fixpoint in_ranges (ranges : list (ascii * ascii)) (c : ascii) : bool :=
  match ranges with
  | [] => false
  | (lo, hi) :: ranges' =>
      Py.in_range (Py.ord lo) (Py.ord hi) c || in_ranges ranges' c
  end.

Definition lower_range (r : ascii * ascii) : ascii * ascii :=
  (lower (fst r), lower (snd r)).

(** Does the atom accept [c]?  With [ignorecase] a literal and the
    bounds of a set are lowered when the pattern is compiled and the
    subject character is lowered before the comparison. *)
Definition atom_match (ignorecase : bool) (a : atom) (c : ascii) : bool :=
  match a with
  | ALit l =>
      if ignorecase then Ascii.eqb (lower c) (lower l) else Ascii.eqb c l
  | ADigit => Py.isdigit c
  | ASet ranges =>
      if ignorecase then in_ranges (map lower_range ranges) (lower c)
      else in_ranges ranges c
  end.

(** [$] without [re.MULTILINE]: the end of the subject, or just before
    a line feed that ends it. *)
Definition at_end (s : string) : bool :=
  match s with
  | EmptyString => true
  | String c EmptyString => Ascii.eqb c Py.LF
  | _ => false
  end.

(** The first [n] characters of [s]. *)
Fixpoint take (n : nat) (s : string) : string :=
  match n, s with
  | S n', String c s' => String c (take n' s')
  | _, _ => ""
  end.

Section Matcher.
Context {R : Type}.
Variable ignorecase : bool.

(** Greedy repetition of an atom, at least [lo] times: as many
    characters as possible first, then one fewer, and so on. *)
Fixpoint repeat_greedy (a : atom) (lo pos : nat) (s : string)
    (k : nat -> string -> option R) : option R :=
  let stop := if lo =? 0 then k pos s else None in
  match s with
  | String c s' =>
      if atom_match ignorecase a c then
        match repeat_greedy a (pred lo) (S pos) s' k with
        | Some r => Some r
        | None => stop
        end
      else stop
  | EmptyString => stop
  end.

(** [rmatch r pos s g k]: match [r] at offset [pos], where [s] is
    what is left of the subject and [g] the groups set so far; [k]
    continues with the rest of the pattern. *)
Fixpoint rmatch (r : regex) (pos : nat) (s : string)
    (g : gmap nat string)
    (k : nat -> string -> gmap nat string -> option R) : option R :=
  match r with
  | REmpty => k pos s g
  | RAtom a =>
      match s with
      | String c s' =>
          if atom_match ignorecase a c then k (S pos) s' g else None
      | EmptyString => None
      end
  | RRepeat lo a => repeat_greedy a lo pos s (fun p s' => k p s' g)
  | RSeq r1 r2 =>
      rmatch r1 pos s g (fun p s' g' => rmatch r2 p s' g' k)
  | ROpt r1 =>
      match rmatch r1 pos s g k with
      | Some res => Some res
      | None => k pos s g
      end
  | RGroup i r1 =>
      rmatch r1 pos s g
        (fun p s' g' => k p s' (<[i := take (p - pos) s]> g'))
  | RBol => if pos =? 0 then k pos s g else None
  | REol => if at_end s then k pos s g else None
  end.
End Matcher.

(** What [rmatch] computes, read as a relation: [r] takes the matcher
    from offset [pos], rest [s] and groups [g] to offset [p], rest [s']
    and groups [g']. *)
Fixpoint all_match (ignorecase : bool) (a : atom) (cs : string) : Prop :=
  match cs with
  | EmptyString => True
  | String c cs' =>
      atom_match ignorecase a c = true /\ all_match ignorecase a cs'
  end.

Fixpoint rsem (ignorecase : bool) (r : regex) (pos : nat) (s : string)
    (g : gmap nat string) (p : nat) (s' : string) (g' : gmap nat string)
  : Prop :=
  match r with
  | REmpty => p = pos /\ s' = s /\ g' = g
  | RAtom a =>
      exists c, s = String c s' /\ atom_match ignorecase a c = true
                /\ p = S pos /\ g' = g
  | RRepeat lo a =>
      exists cs, s = cs +:+ s' /\ all_match ignorecase a cs
                 /\ lo <= String.length cs
                 /\ p = pos + String.length cs /\ g' = g
  | RSeq r1 r2 =>
      exists p1 s1 g1, rsem ignorecase r1 pos s g p1 s1 g1
                       /\ rsem ignorecase r2 p1 s1 g1 p s' g'
  | ROpt r1 =>
      rsem ignorecase r1 pos s g p s' g' \/ (p = pos /\ s' = s /\ g' = g)
  | RGroup i r1 =>
      exists g0, rsem ignorecase r1 pos s g p s' g0
                 /\ g' = <[i := take (p - pos) s]> g0
  | RBol => pos = 0 /\ p = pos /\ s' = s /\ g' = g
  | REol => at_end s = true /\ p = pos /\ s' = s /\ g' = g
  end.

(** [re.compile(p, flags).match(s)]: the groups of the match of [r] at
    the start of [s], or [None]. *)
Definition re_match (ignorecase : bool) (r : regex) (s : string)
  : option (gmap nat string) :=
  rmatch ignorecase r 0 s ∅ (fun _ _ g => Some g).

(** The text [s], character by character (what a pattern holding
    [re.escape(s)] matches). *)
Fixpoint literal (s : string) : regex :=
  match s with
  | EmptyString => REmpty
  | String c s' => RSeq (RAtom (ALit c)) (literal s')
  end.

(** A sequence of items. *)
Fixpoint seq (rs : list regex) : regex :=
  match rs with
  | [] => REmpty
  | r :: rs' => RSeq r (seq rs')
  end.

Definition hex : atom := ASet [("0", "9"); ("a", "f")]%char.

(** [lower] on every character: two texts with the same image differ in
    the case of ASCII letters only. *)
Fixpoint lower_string (s : string) : string :=
  match s with
  | EmptyString => EmptyString
  | String c s' => String (lower c) (lower_string s')
  end.

End Sre.

(** ** The module *)

(** Program name, for display. *)
Definition MYPAINT_PROGRAM_NAME : string := "MyPaint".

(** Base version string. *)
Definition MYPAINT_VERSION : string := "1.2.0-beta.0".

(** What [_get_versions] reads from the current working directory. *)
Record env := {
  release_info : option string;  (* the bytes of the file, when it is there *)
  dot_git : bool;                (* is [.git] a directory? *)
  git_describe : option string   (* stdout of the command; [None] when
                                    [check_output] raises *)
}.

Inductive exn :=
| RuntimeError (msg : string)
| ValueError (msg : string)
| ExecError   (* [release_info] is not a file of [NAME='literal'] lines:
                 the model does not follow what [exec] does with it, see
                 [Py.exec] *)
| IntError    (* [int] refused its argument *).

Inductive outcome (A : Type) :=
| Return (x : A)
| Raise (e : exn).
Arguments Return {A} x.
Arguments Raise {A} e.

(** Sequencing: an exception ends the computation. *)
#[global] Instance outcome_ret : MRet outcome := @Return.
#[global] Instance outcome_bind : MBind outcome :=
  fun A B (f : A -> outcome B) (m : outcome A) =>
    match m with
    | Return x => f x
    | Raise e => Raise e
    end.

(** The result of a call: the lines printed on standard error and how
    the call ended. *)
Record result (A : Type) := {
  stderr : list string;
  ended : outcome A
}.
Arguments stderr {A} r.
Arguments ended {A} r.

Definition versions : Type := string * string * string.

Definition cmd : list string :=
  ["git"; "describe"; "--tags"; "--long"; "--dirty"; "--always"].

Definition dq : string := String Py.DQUOTE "".

(** The three optional parts of [parse_pattern1]:
    [(?:-(\d+))?], [(?:-g([0-9a-f]+))?] and [(?:-(dirty))?]. *)
Definition opt_commits : Sre.regex :=
  Sre.ROpt (Sre.RSeq (Sre.RAtom (Sre.ALit "-"))
              (Sre.RGroup 1 (Sre.RRepeat 1 Sre.ADigit))).
Definition opt_objsha : Sre.regex :=
  Sre.ROpt (Sre.RSeq (Sre.RAtom (Sre.ALit "-"))
              (Sre.RSeq (Sre.RAtom (Sre.ALit "g"))
                 (Sre.RGroup 2 (Sre.RRepeat 1 Sre.hex)))).
Definition opt_dirty : Sre.regex :=
  Sre.ROpt (Sre.RSeq (Sre.RAtom (Sre.ALit "-"))
              (Sre.RGroup 3 (Sre.literal "dirty"))).

(** [parse_pattern1], for the base version [base_version]. *)
Definition parse_re1 (base_version : string) : Sre.regex :=
  Sre.seq
    [ Sre.RBol;
      Sre.RAtom (Sre.ALit "v");
      Sre.literal base_version;
      opt_commits;
      opt_objsha;
      opt_dirty;
      Sre.REol ].

(** [parse_pattern2]. *)
Definition parse_re2 : Sre.regex :=
  Sre.seq [ Sre.RBol; Sre.RGroup 1 (Sre.RRepeat 7 Sre.hex); Sre.REol ].

Definition parse_error_message (ver git_desc : string) : string :=
  "Failed to parse output of " +:+ dq +:+ Py.join " " cmd +:+ dq +:+ ". "
  +:+ "The base MYPAINT_VERSION (" +:+ ver +:+ ") from the code "
  +:+ "must be present in the output of this command "
  +:+ "(" +:+ Py.repr git_desc +:+ "). "
  +:+ "The local repo may be missing a tag named " +:+ dq +:+ "v" +:+ ver
  +:+ dq +:+ ", "
  +:+ "or we need to add another case for parsing git output.".

Definition final_release_message (ver : string) : string :=
  "The code's MYPAINT_VERSION (" +:+ ver +:+ ") "
  +:+ "denotes a final release but there are commits "
  +:+ "after the tag v" +:+ ver +:+ " in this git branch. "
  +:+ "A new 'vX.Y.Z-alpha' phase tag needs to be "
  +:+ "created for the next version now, "
  +:+ "and lib.meta.MYPAINT_VERSION needs to be "
  +:+ "updated to match it.".

Definition describe_failed_message : string :=
  "ERROR: Failed to invoke 'git describe'. "
  +:+ "Build will be marked as unsupported.".

(** What the two matches give: [(nrevs, objsha, dirty)], or [None] when
    neither pattern matches. *)
Definition parse_describe (base_version git_desc : string)
  : option (Py.value * option string * option string) :=
  let match1 := Sre.re_match true (parse_re1 base_version) git_desc in
  let match2 := Sre.re_match true parse_re2 git_desc in
  match match1, match2 with
  | Some g, _ => Some (Py.of_group (g !! 1), g !! 2, g !! 3)
  | None, Some g => Some (Py.VInt 0, g !! 1, None)
  | None, None => None
  end.

(** The list [build_ids] of lines 249 to 253. *)
Definition build_ids (gitprefix : string) (objsha dirty : option string)
  : list string :=
  let build_ids := [] in
  let build_ids :=
    if Py.truthy objsha
    then build_ids ++ [gitprefix +:+ "." +:+ default "" objsha]
    else build_ids in
  let build_ids :=
    if Py.truthy dirty then build_ids ++ ["dirty"] else build_ids in
  build_ids.

(** The [else] branch of the [try] in [_get_versions]: what is done with
    the stripped output [git_desc] of the command. *)
Definition versions_of_describe (version gitprefix git_desc : string)
  : outcome versions :=
  (* Assume this is a final release like v1.2.0 at first *)
  let base_version := version in
  let formal_version := version in
  let ceremonial_version := version in
  (* Parse and spit an error if we get something unexpected. *)
  '(nrevs, objsha, dirty) ←
    match parse_describe base_version git_desc with
    | Some groups => Return groups
    | None =>
        Raise (RuntimeError (parse_error_message base_version git_desc))
    end;
  (* nrevs is None or zero if this commit is the matched tag. *)
  '(formal_version, ceremonial_version) ←
    (if Py.truth nrevs then
       n ← match Py.int nrevs with
           | Some n => Return n
           | None => Raise IntError
           end;
       if (n >? 0)%Z then
         if negb (Py.contains base_version "-") then
           Raise (ValueError (final_release_message base_version))
         else
           let formal_version :=
             base_version +:+ "." +:+ Py.format_s nrevs in
           Return (formal_version, formal_version)
       else Return (formal_version, ceremonial_version)
     else Return (formal_version, ceremonial_version));
  (* Collect details about the build after a plus sign. *)
  let build_ids := build_ids gitprefix objsha dirty in
  let ceremonial_version :=
    match build_ids with
    | [] => ceremonial_version
    | _ =>
        let build_metadata := Py.join "." build_ids in
        formal_version +:+ "+" +:+ build_metadata
    end in
  Return (base_version, formal_version, ceremonial_version).

(** [_get_versions(gitprefix)], with the module constant it reads
    ([MYPAINT_VERSION]) as the argument [version]. *)
Definition _get_versions (version gitprefix : string) (e : env)
  : result versions :=
  let base_version := version in
  let formal_version := base_version in
  let ceremonial_version := formal_version +:+ "+unknown" in
  match release_info e with
  | Some file =>
      match Py.exec file ∅ with
      | None => {| stderr := []; ended := Raise ExecError |}
      | Some relinfo =>
          {| stderr := [];
             ended :=
               Return (Py.get relinfo "MYPAINT_VERSION_BASE" base_version,
                       Py.get relinfo "MYPAINT_VERSION_FORMAL" formal_version,
                       Py.get relinfo "MYPAINT_VERSION_CEREMONIAL"
                         ceremonial_version) |}
      end
  | None =>
      if dot_git e then
        match git_describe e with
        | None =>
            {| stderr := [describe_failed_message];
               ended :=
                 Return (base_version, formal_version, ceremonial_version) |}
        | Some out =>
            {| stderr := [];
               ended := versions_of_describe version gitprefix (Py.strip out) |}
        end
      else
        {| stderr := [];
           ended := Return (base_version, formal_version, ceremonial_version) |}
  end.

(** Lines 274 to 276: the three assignments. *)
Definition release_info_text (v : versions) : string :=
  let '(base, formal, ceremonial) := v in
  let release_info := "MYPAINT_VERSION_BASE=" +:+ Py.repr base +:+ String Py.LF "" in
  let release_info :=
    release_info +:+ "MYPAINT_VERSION_FORMAL=" +:+ Py.repr formal
    +:+ String Py.LF "" in
  let release_info :=
    release_info +:+ "MYPAINT_VERSION_CEREMONIAL=" +:+ Py.repr ceremonial
    +:+ String Py.LF "" in
  release_info.

(** [_get_release_info_script(gitprefix)]. *)
Definition _get_release_info_script (version gitprefix : string) (e : env)
  : result string :=
  let r := _get_versions version gitprefix e in
  {| stderr := stderr r;
     ended :=
       match ended r with
       | Return v => Return (release_info_text v)
       | Raise x => Raise x
       end |}.

(** The default value of the argument [gitprefix]. *)
Definition default_gitprefix : string := "gitexport".

(** Lines 284 and 285: run as a script, the module prints what
    [_get_release_info_script()] returns; the text ends in a line feed,
    after which the trailing comma of [print] adds nothing.  The string
    of the result is what is written on standard output. *)
Definition main (e : env) : result string :=
  _get_release_info_script MYPAINT_VERSION default_gitprefix e.

(** The output of [git describe] three commits after a tag named
    [caf\xc3\xa9] (the name ends in a letter outside ASCII, two bytes
    in UTF-8), in a repository that has no tag for the base version. *)
Definition describe_of_other_tag : string :=
  "caf" +:+ String (Py.chr 195) (String (Py.chr 169) "") +:+ "-3-gabcdef0".

(** A [release_info] file edited by hand for the final release: the
    formal and ceremonial versions were changed, the base version was
    left as the export had written it. *)
Definition edited_release_info : string :=
  "MYPAINT_VERSION_BASE='1.2.0-beta.0'" +:+ String Py.LF ""
  +:+ "MYPAINT_VERSION_FORMAL='1.2.0'" +:+ String Py.LF ""
  +:+ "MYPAINT_VERSION_CEREMONIAL='1.2.0+gitexport.abcdef0'"
  +:+ String Py.LF "".

(** A working copy in which [git describe] prints [out]. *)
Definition env_git (out : string) : env :=
  {| release_info := None; dot_git := true; git_describe := Some out |}.

(** An unpacked export whose [release_info] holds [file]. *)
Definition env_export (file : string) : env :=
  {| release_info := Some file; dot_git := false; git_describe := None |}.


(** * Properties *)

#[local] Arguments String.append : simpl nomatch.

(** ** Byte strings *)

Section Strings.
Implicit Types s t u x : string.

Lemma append_nil_r s : s +:+ "" = s.
Proof. induction s; simpl; congruence. Qed.

Lemma append_assoc s t u : (s +:+ t) +:+ u = s +:+ t +:+ u.
Proof. induction s; simpl; congruence. Qed.

Lemma length_append s t :
  String.length (s +:+ t) = String.length s + String.length t.
Proof. induction s; simpl; congruence. Qed.

Lemma prefix_iff x s : String.prefix x s = true <-> exists t, s = x +:+ t.
Proof.
  revert s. induction x as [|c x IH]; intros [|d s]; simpl.
  - split; eauto.
  - split; eauto.
  - split; [discriminate | intros [t Ht]; discriminate].
  - destruct (ascii_dec c d) as [->|Hne].
    + rewrite IH. split; intros [t Ht]; exists t; congruence.
    + split; [discriminate | intros [t Ht]; congruence].
Qed.

Lemma startswith_iff s x : Py.startswith s x = true <-> exists t, s = x +:+ t.
Proof. apply prefix_iff. Qed.

Lemma endswith_iff s x : Py.endswith s x = true <-> exists t, s = t +:+ x.
Proof.
  induction s as [|c s IH]; cbn [Py.endswith].
  - rewrite orb_false_r, String.eqb_eq. split.
    + intros <-. by exists "".
    + intros [[|d t] Ht]; simpl in Ht; [done | discriminate].
  - rewrite orb_true_iff, IH, String.eqb_eq. split.
    + intros [<- | [t ->]]; [by exists "" | by exists (String c t)].
    + intros [[|d t] Ht]; simpl in Ht; [by left |].
      right. exists t. congruence.
Qed.

Lemma contains_iff s x :
  Py.contains s x = true <-> exists t u, s = t +:+ x +:+ u.
Proof.
  induction s as [|c s IH].
  - cbn [Py.contains]. rewrite orb_false_r, startswith_iff. split.
    + intros [u Hu]. by exists "", u.
    + intros [[|d t] [u Hu]]; simpl in Hu; [by exists u | discriminate].
  - cbn [Py.contains]. rewrite orb_true_iff, IH, startswith_iff. split.
    + intros [[u Hu] | (t & u & ->)]; [by exists "", u | by exists (String c t), u].
    + intros ([|d t] & u & Hu); simpl in Hu; [left; by exists u |].
      right. exists t, u. congruence.
Qed.

Lemma contains_prefix x u : Py.contains (x +:+ u) x = true.
Proof. apply contains_iff. by exists "", u. Qed.

Lemma contains_append_r t s x :
  Py.contains s x = true -> Py.contains (t +:+ s) x = true.
Proof.
  rewrite !contains_iff. intros (a & b & ->). exists (t +:+ a), b.
  by rewrite append_assoc.
Qed.

End Strings.

(** ** The matcher *)

Section Matching.
Context {R : Type}.
Variable ic : bool.
Implicit Types (k : nat -> string -> gmap nat string -> option R).

Lemma take_length_append (cs s : string) :
  Sre.take (String.length cs) (cs +:+ s) = cs.
Proof. induction cs; destruct s; simpl; congruence. Qed.

(** A successful greedy repetition consumed a run of accepted
    characters, long enough, and went on from there. *)
Lemma repeat_greedy_sound a s :
  forall lo pos (k : nat -> string -> option R) res,
    Sre.repeat_greedy ic a lo pos s k = Some res ->
    exists cs s', s = cs +:+ s' /\ Sre.all_match ic a cs
                  /\ lo <= String.length cs
                  /\ k (pos + String.length cs) s' = Some res.
Proof.
  induction s as [|c s IH]; intros lo pos k res; cbn [Sre.repeat_greedy].
  - destruct (Nat.eqb_spec lo 0) as [->|]; [|discriminate].
    intros Hk. exists "", "". simpl. rewrite Nat.add_0_r. auto.
  - assert (Hstop : (if lo =? 0 then k pos (String c s) else None) = Some res ->
              exists cs s', String c s = cs +:+ s' /\ Sre.all_match ic a cs
                  /\ lo <= String.length cs
                  /\ k (pos + String.length cs) s' = Some res).
    { destruct (Nat.eqb_spec lo 0) as [->|]; [|discriminate].
      intros Hk. exists "", (String c s). simpl. rewrite Nat.add_0_r. auto. }
    destruct (Sre.atom_match ic a c) eqn:Hc; [|exact Hstop].
    destruct (Sre.repeat_greedy ic a (pred lo) (S pos) s k) eqn:Hrec;
      [|exact Hstop].
    intros [= ->]. apply IH in Hrec as (cs & s' & -> & Hall & Hlo & Hk).
    exists (String c cs), s'. simpl. repeat split; auto; [lia|].
    by rewrite <- Nat.add_succ_comm.
Qed.

(** Every success of the matcher is a match in the sense of [rsem]. *)
Lemma rmatch_sound r :
  forall pos s g k res,
    Sre.rmatch ic r pos s g k = Some res ->
    exists p s' g', Sre.rsem ic r pos s g p s' g' /\ k p s' g' = Some res.
Proof.
  induction r as [|a|lo a|r1 IH1 r2 IH2|r1 IH1|i r1 IH1| |];
    intros pos s g k res; cbn [Sre.rmatch Sre.rsem].
  - intros Hk. by exists pos, s, g.
  - destruct s as [|c s]; [discriminate|].
    destruct (Sre.atom_match ic a c) eqn:Hc; [|discriminate].
    intros Hk. exists (S pos), s, g. split; [|done]. by exists c.
  - intros H. apply repeat_greedy_sound in H as (cs & s' & -> & Hall & Hlo & Hk).
    exists (pos + String.length cs), s', g. split; [|done]. by exists cs.
  - intros H. apply IH1 in H as (p1 & s1 & g1 & H1 & H).
    apply IH2 in H as (p & s' & g' & H2 & Hk).
    exists p, s', g'. split; [|done]. by exists p1, s1, g1.
  - destruct (Sre.rmatch ic r1 pos s g k) eqn:H1.
    + intros [= ->]. apply IH1 in H1 as (p & s' & g' & H1 & Hk).
      exists p, s', g'. auto.
    + intros Hk. exists pos, s, g. auto.
  - intros H. apply IH1 in H as (p & s' & g0 & H1 & Hk).
    eexists p, s', _. split; [|exact Hk]. by exists g0.
  - destruct (Nat.eqb_spec pos 0) as [->|]; [|discriminate].
    intros Hk. by exists 0, s, g.
  - destruct (Sre.at_end s) eqn:He; [|discriminate].
    intros Hk. by exists pos, s, g.
Qed.

(** The text of [Sre.literal x] is matched in one way only. *)
Lemma rmatch_literal x :
  forall pos s g k,
    Sre.rmatch ic (Sre.literal x) pos (x +:+ s) g k
    = k (pos + String.length x) s g.
Proof.
  induction x as [|c x IH]; intros pos s g k;
    cbn [Sre.literal Sre.rmatch String.append String.length].
  - by rewrite Nat.add_0_r.
  - assert (Sre.atom_match ic (Sre.ALit c) c = true) as ->.
    { simpl. destruct ic; apply Ascii.eqb_refl. }
    rewrite IH. by rewrite Nat.add_succ_comm.
Qed.

(** A greedy repetition over a run of accepted characters that ends
    the subject, or is followed by a character the atom refuses, hands
    the whole run to a continuation that accepts it. *)
Lemma repeat_greedy_run a cs :
  forall lo pos s (k : nat -> string -> option R) res,
    Sre.all_match ic a cs ->
    lo <= String.length cs ->
    match s with
    | EmptyString => True
    | String c _ => Sre.atom_match ic a c = false
    end ->
    k (pos + String.length cs) s = Some res ->
    Sre.repeat_greedy ic a lo pos (cs +:+ s) k = Some res.
Proof.
  induction cs as [|c cs IH]; intros lo pos s k res Hall Hlo Hs Hk.
  - simpl in *. rewrite Nat.add_0_r in Hk.
    assert (lo = 0) as -> by lia.
    destruct s as [|d s]; simpl; [done|]. by rewrite Hs.
  - destruct Hall as [Hc Hall].
    cbn [Sre.repeat_greedy String.append String.length]. rewrite Hc.
    erewrite IH; eauto; [simpl in Hlo; lia|].
    simpl in Hk. by rewrite Nat.add_succ_comm.
Qed.

End Matching.

(** ** The parse patterns *)

Section Patterns.
Implicit Types (base desc : string) (g : gmap nat string).

Lemma rsem_literal ic x :
  forall pos s g p s' g',
    Sre.rsem ic (Sre.literal x) pos s g p s' g' ->
    exists y, s = y +:+ s' /\ String.length y = String.length x
              /\ p = pos + String.length x /\ g' = g.
Proof.
  induction x as [|c x IH]; intros pos s g p s' g'; cbn [Sre.literal Sre.rsem].
  - intros (-> & -> & ->). exists "". simpl. by rewrite Nat.add_0_r.
  - intros (p1 & s1 & g1 & (d & -> & _ & -> & ->) & H).
    apply IH in H as (y & -> & Hlen & -> & ->).
    exists (String d y). simpl. repeat split; auto; lia.
Qed.

Lemma length_nonempty (cs : string) :
  1 <= String.length cs -> cs <> "".
Proof. destruct cs; simpl; [lia | done]. Qed.

Lemma take_consumed (cs s : string) pos :
  Sre.take (pos + String.length cs - pos) (cs +:+ s) = cs.
Proof.
  replace (pos + String.length cs - pos) with (String.length cs) by lia.
  apply take_length_append.
Qed.

(** A group around a repetition holds the run that was consumed. *)
Lemma rsem_group_repeat ic i lo a pos s g p s' g' :
  Sre.rsem ic (Sre.RGroup i (Sre.RRepeat lo a)) pos s g p s' g' ->
  exists cs, s = cs +:+ s' /\ Sre.all_match ic a cs
             /\ lo <= String.length cs /\ g' = <[i := cs]> g.
Proof.
  cbn [Sre.rsem]. intros (g0 & (cs & -> & Hall & Hlo & -> & ->) & ->).
  exists cs. by rewrite take_consumed.
Qed.

Lemma rsem_group_literal ic i x pos s g p s' g' :
  Sre.rsem ic (Sre.RGroup i (Sre.literal x)) pos s g p s' g' ->
  exists y, s = y +:+ s' /\ String.length y = String.length x
            /\ g' = <[i := y]> g.
Proof.
  cbn [Sre.rsem]. intros (g0 & H & ->).
  apply rsem_literal in H as (y & -> & Hlen & -> & ->).
  exists y. by rewrite <- Hlen, take_consumed.
Qed.

Lemma rsem_opt_commits pos s g p s' g' :
  Sre.rsem true opt_commits pos s g p s' g' ->
  g' = g \/ exists ds, 1 <= String.length ds
                       /\ Sre.all_match true Sre.ADigit ds
                       /\ g' = <[1 := ds]> g.
Proof.
  unfold opt_commits. cbn [Sre.rsem].
  intros [(p1 & s1 & g1 & (c & -> & _ & -> & ->) & H) | (_ & _ & ->)];
    [right | by left].
  apply (rsem_group_repeat true 1 1 Sre.ADigit) in H
    as (ds & -> & Hall & Hlo & ->).
  by exists ds.
Qed.

Lemma rsem_opt_objsha pos s g p s' g' :
  Sre.rsem true opt_objsha pos s g p s' g' ->
  g' = g \/ exists h, 1 <= String.length h
                      /\ Sre.all_match true Sre.hex h
                      /\ g' = <[2 := h]> g.
Proof.
  unfold opt_objsha. cbn [Sre.rsem].
  intros [(p1 & s1 & g1 & (c & -> & _ & -> & ->)
           & (p2 & s2 & g2 & (c2 & -> & _ & -> & ->) & H))
         | (_ & _ & ->)]; [right | by left].
  apply (rsem_group_repeat true 2 1 Sre.hex) in H
    as (h & -> & Hall & Hlo & ->).
  by exists h.
Qed.

Lemma rsem_opt_dirty pos s g p s' g' :
  Sre.rsem true opt_dirty pos s g p s' g' ->
  g' = g \/ exists d, String.length d = 5 /\ g' = <[3 := d]> g.
Proof.
  unfold opt_dirty. cbn [Sre.rsem].
  intros [(p1 & s1 & g1 & (c & -> & _ & -> & ->) & H) | (_ & _ & ->)];
    [right | by left].
  apply (rsem_group_literal true 3 "dirty") in H as (d & -> & Hlen & ->).
  by exists d.
Qed.

(** What the groups of a match of pattern A hold: group 1 a non-empty
    run of digits, group 2 a non-empty run of hexadecimal digits,
    group 3 five characters. *)
Lemma parse_re1_groups base desc g :
  Sre.re_match true (parse_re1 base) desc = Some g ->
  (forall ds, g !! 1 = Some ds ->
              ds <> "" /\ Sre.all_match true Sre.ADigit ds)
  /\ (forall h, g !! 2 = Some h ->
                h <> "" /\ Sre.all_match true Sre.hex h)
  /\ (forall d, g !! 3 = Some d -> String.length d = 5).
Proof.
  unfold Sre.re_match. intros H.
  apply rmatch_sound in H as (p & s' & g' & H & [= ->]).
  unfold parse_re1 in H. cbn [Sre.seq] in H.
  destruct H as (p1 & s1 & g1 & (_ & _ & _ & ->) & H).
  destruct H as (p2 & s2 & g2 & (c & _ & _ & _ & ->) & H).
  destruct H as (p3 & s3 & g3 & Hlit & H).
  apply rsem_literal in Hlit as (y & _ & _ & _ & ->).
  destruct H as (p4 & s4 & g4 & H1 & H).
  destruct H as (p5 & s5 & g5 & H2 & H).
  destruct H as (p6 & s6 & g6 & H3 & H).
  destruct H as (p7 & s7 & g7 & (_ & _ & _ & ->) & (_ & _ & ->)).
  apply rsem_opt_commits in H1. apply rsem_opt_objsha in H2.
  apply rsem_opt_dirty in H3.
  destruct H1 as [-> | (ds & Hds & Hdig & ->)];
    destruct H2 as [-> | (h & Hh & Hhex & ->)];
    destruct H3 as [-> | (d & Hd & ->)];
    (split; [|split]); intros x Hx; simplify_map_eq;
    auto using length_nonempty.
Qed.

End Patterns.

(** ** Matches computed for outputs of a given shape *)

Section Forward.
Context {R : Type}.
Implicit Types (k : nat -> string -> gmap nat string -> option R).

Lemma rmatch_opt_some ic r pos s g k res :
  Sre.rmatch ic r pos s g k = Some res ->
  Sre.rmatch ic (Sre.ROpt r) pos s g k = Some res.
Proof. cbn [Sre.rmatch]. by intros ->. Qed.

Lemma rmatch_group_run ic i lo a cs pos s g k res :
  Sre.all_match ic a cs ->
  lo <= String.length cs ->
  match s with
  | EmptyString => True
  | String c _ => Sre.atom_match ic a c = false
  end ->
  k (pos + String.length cs) s (<[i := cs]> g) = Some res ->
  Sre.rmatch ic (Sre.RGroup i (Sre.RRepeat lo a)) pos (cs +:+ s) g k
  = Some res.
Proof.
  intros Hall Hlo Hs Hk. cbn [Sre.rmatch].
  apply repeat_greedy_run; auto. by rewrite take_consumed.
Qed.

(** The commits part, when it is there. *)
Lemma rmatch_opt_commits ds pos s g k res :
  Sre.all_match true Sre.ADigit ds ->
  1 <= String.length ds ->
  match s with
  | EmptyString => True
  | String c _ => Py.isdigit c = false
  end ->
  k (S pos + String.length ds) s (<[1 := ds]> g) = Some res ->
  Sre.rmatch true opt_commits pos ("-" +:+ ds +:+ s) g k = Some res.
Proof.
  intros Hall Hlo Hs Hk. apply rmatch_opt_some.
  cbn [Sre.rmatch String.append].
  change (Sre.atom_match true (Sre.ALit "-") "-") with true. cbv iota.
  by apply (rmatch_group_run true 1 1 Sre.ADigit).
Qed.

(** The object id part, when it is there. *)
Lemma rmatch_opt_objsha h pos s g k res :
  Sre.all_match true Sre.hex h ->
  1 <= String.length h ->
  match s with
  | EmptyString => True
  | String c _ => Sre.atom_match true Sre.hex c = false
  end ->
  k (S (S pos) + String.length h) s (<[2 := h]> g) = Some res ->
  Sre.rmatch true opt_objsha pos ("-g" +:+ h +:+ s) g k = Some res.
Proof.
  intros Hall Hlo Hs Hk. apply rmatch_opt_some.
  cbn [Sre.rmatch String.append].
  change (Sre.atom_match true (Sre.ALit "-") "-") with true. cbv iota.
  change (Sre.atom_match true (Sre.ALit "g") "g") with true. cbv iota.
  by apply (rmatch_group_run true 2 1 Sre.hex).
Qed.
End Forward.

(** The long form printed at the tag itself: groups 1 and 2 are set. *)
Lemma match1_at_tag_long (version sha : string) :
  sha <> "" -> Sre.all_match true Sre.hex sha ->
  Sre.re_match true (parse_re1 version) ("v" +:+ version +:+ "-0-g" +:+ sha)
  = Some (<[2 := sha]> (<[1 := "0"]> ∅)).
Proof.
  intros Hne Hhex. unfold Sre.re_match, parse_re1.
  cbn [Sre.seq Sre.rmatch String.append Nat.eqb].
  change (Sre.atom_match true (Sre.ALit "v") "v") with true. cbv iota.
  rewrite rmatch_literal.
  apply (rmatch_opt_commits "0" _ ("-g" +:+ sha)); [by split | simpl; lia | done |].
  rewrite <- (append_nil_r sha) at 1.
  apply (rmatch_opt_objsha sha _ ""); [done | by destruct sha; simpl; [|lia] | done |].
  reflexivity.
Qed.

(** No hexadecimal digit is accepted where pattern A wants its [v]. *)
Lemma hex_is_not_v (c : ascii) :
  Sre.atom_match true Sre.hex c = true ->
  Sre.atom_match true (Sre.ALit "v") c = false.
Proof. destruct c as [[] [] [] [] [] [] [] []]; vm_compute; congruence. Qed.

(** Pattern A refuses an output that starts with a hexadecimal digit. *)
Lemma match1_hex_first (version : string) (c : ascii) (s : string) :
  Sre.atom_match true Sre.hex c = true ->
  Sre.re_match true (parse_re1 version) (String c s) = None.
Proof.
  intros Hc. unfold Sre.re_match, parse_re1.
  cbn [Sre.seq Sre.rmatch Nat.eqb]. by rewrite (hex_is_not_v _ Hc).
Qed.

(** A repetition of an atom that refuses [-], followed by [$], fails
    before the text [-dirty]. *)
Lemma repeat_greedy_before_dirty {R} (a : Sre.atom) (x : string) :
  forall lo pos (k : nat -> string -> option R),
    Sre.atom_match true a "-" = false ->
    (forall p s', Sre.at_end s' = false -> k p s' = None) ->
    Sre.repeat_greedy true a lo pos (x +:+ "-dirty") k = None.
Proof.
  induction x as [|c x IH]; intros lo pos k Ha Hk.
  - cbn [String.append]. unfold Sre.repeat_greedy.
    rewrite Ha, (Hk pos "-dirty" eq_refl). by destruct (Nat.eqb lo 0).
  - cbn [String.append Sre.repeat_greedy]. rewrite (IH _ _ _ Ha Hk).
    assert (k pos (String c (x +:+ "-dirty")) = None) as ->.
    { apply Hk. by destruct x. }
    by destruct (Sre.atom_match true a c), (Nat.eqb lo 0).
Qed.

(** Pattern B refuses every output that ends in [-dirty]. *)
Lemma match2_dirty (x : string) :
  Sre.re_match true parse_re2 (x +:+ "-dirty") = None.
Proof.
  unfold Sre.re_match, parse_re2. cbn [Sre.seq Sre.rmatch Nat.eqb].
  apply repeat_greedy_before_dirty; [done|]. by intros p s' ->.
Qed.

(** ** [repr] *)

Section Repr.

Lemma repr_char_plain (c : ascii) :
  Py.plain_char c = true -> Py.repr_char Py.SQUOTE c = String c "".
Proof.
  destruct c as [[] [] [] [] [] [] [] []]; vm_compute;
    first [discriminate | reflexivity].
Qed.

Lemma repr_body_plain (s : string) :
  Py.plain s = true -> Py.repr_body Py.SQUOTE s = s.
Proof.
  induction s as [|c s IH]; cbn [Py.plain Py.repr_body]; [done|].
  intros [Hc Hs]%andb_true_iff. by rewrite (repr_char_plain _ Hc), IH.
Qed.

Lemma has_char_plain (s : string) :
  Py.plain s = true -> Py.has_char Py.SQUOTE s = false.
Proof.
  unfold Py.has_char.
  induction s as [|c s IH]; cbn [Py.plain Py.contains]; [done|].
  intros [Hc Hs]%andb_true_iff. rewrite (IH Hs), orb_false_r.
  unfold Py.startswith. cbn [String.prefix].
  destruct (ascii_dec Py.SQUOTE c) as [<-|Hne]; [discriminate|done].
Qed.

(** The [repr] of a plain string is the string between single
    quotes. *)
Lemma repr_plain (s : string) :
  Py.plain s = true -> Py.repr s = "'" +:+ s +:+ "'".
Proof.
  intros Hs. unfold Py.repr, Py.repr_quote.
  rewrite (has_char_plain _ Hs). cbn [andb].
  by rewrite (repr_body_plain _ Hs).
Qed.

End Repr.

(** ** The resolver on a working copy *)

Section Describe.
Variables version gitprefix : string.
Implicit Types (e : env) (out git_desc : string) (g : gmap nat string).

(** On a working copy whose [git describe] ran, the call ends as
    [versions_of_describe] does on the stripped output, and nothing is
    printed. *)
Lemma get_versions_describe e out :
  release_info e = None -> dot_git e = true -> git_describe e = Some out ->
  _get_versions version gitprefix e
  = {| stderr := [];
       ended := versions_of_describe version gitprefix (Py.strip out) |}.
Proof. unfold _get_versions. by intros -> -> ->. Qed.

Lemma parse_describe_match1 git_desc g :
  Sre.re_match true (parse_re1 version) git_desc = Some g ->
  parse_describe version git_desc
  = Some (Py.of_group (g !! 1), g !! 2, g !! 3).
Proof. unfold parse_describe. by intros ->. Qed.

Lemma bind_return {A B} (x : A) (f : A -> outcome B) :
  Return x ≫= f = f x.
Proof. reflexivity. Qed.

Lemma bind_raise {A B} (x : exn) (f : A -> outcome B) :
  Raise x ≫= f = Raise x.
Proof. reflexivity. Qed.

Lemma truthy_nonempty (s : string) : s <> "" -> Py.truthy (Some s) = true.
Proof. by destruct s. Qed.

Lemma int_str_nonempty (s : string) n :
  Py.int (Py.VStr s) = Some n -> Py.truth (Py.VStr s) = true.
Proof. by destruct s. Qed.

(** The shape of every triple the working-copy path returns: the
    base version is the constant, the formal version is the constant or
    the constant with a dotted suffix, and the ceremonial version is
    the formal version, with the build ids after a plus sign when there
    are any. *)
Lemma versions_of_describe_return git_desc nrevs objsha dirty b f c :
  parse_describe version git_desc = Some (nrevs, objsha, dirty) ->
  versions_of_describe version gitprefix git_desc = Return (b, f, c) ->
  b = version
  /\ (f = version \/ f = version +:+ "." +:+ Py.format_s nrevs)
  /\ c = match build_ids gitprefix objsha dirty with
         | [] => f
         | ids => f +:+ "+" +:+ Py.join "." ids
         end.
Proof.
  intros Hp. unfold versions_of_describe. rewrite Hp, bind_return.
  destruct (Py.truth nrevs).
  - destruct (Py.int nrevs) as [n|]; [|by rewrite bind_raise].
    rewrite bind_return. destruct (n >? 0)%Z.
    + destruct (negb (Py.contains version "-")); [by rewrite bind_raise|].
      rewrite bind_return. intros [= <- <- <-].
      split; [done|]. split; [by right|].
      by destruct (build_ids gitprefix objsha dirty).
    + rewrite bind_return. intros [= <- <- <-].
      split; [done|]. split; [by left|].
      by destruct (build_ids gitprefix objsha dirty).
  - rewrite bind_return. intros [= <- <- <-].
    split; [done|]. split; [by left|].
    by destruct (build_ids gitprefix objsha dirty).
Qed.

End Describe.

(** ** Writing [release_info] and reading it back *)

Section RoundTrip.
Implicit Types (q c : ascii) (s tail rest : string).

(** Reading one character as [repr] writes it gives the character
    back. *)
Lemma literal_body_repr_char q c tail :
  q = Py.SQUOTE \/ q = Py.DQUOTE ->
  Py.literal_body q (Py.repr_char q c +:+ tail)
  = Py.cons_value c (Py.literal_body q tail).
Proof.
  intros [-> | ->]; destruct c as [[] [] [] [] [] [] [] []]; reflexivity.
Qed.

Lemma literal_body_repr_body q s rest :
  q = Py.SQUOTE \/ q = Py.DQUOTE ->
  Py.literal_body q (Py.repr_body q s +:+ String q rest) = Some (s, rest).
Proof.
  intros Hq. induction s as [|c s IH]; cbn [Py.repr_body].
  - cbn [String.append Py.literal_body]. by rewrite Ascii.eqb_refl.
  - by rewrite append_assoc, (literal_body_repr_char _ _ _ Hq), IH.
Qed.

(** What [repr] writes for a character does not start with the
    quote. *)
Lemma repr_char_head q c :
  q = Py.SQUOTE \/ q = Py.DQUOTE ->
  exists h t, Py.repr_char q c = String h t /\ Ascii.eqb h q = false.
Proof.
  intros [-> | ->]; destruct c as [[] [] [] [] [] [] [] []];
    eexists _, _; split; reflexivity.
Qed.

Lemma repr_quote_is_quote s :
  Py.repr_quote s = Py.SQUOTE \/ Py.repr_quote s = Py.DQUOTE.
Proof. unfold Py.repr_quote. destruct (_ && _); auto. Qed.

(** A literal written by [repr] and followed by a line feed is read
    back as the string it was written from. *)
Lemma string_literal_repr s rest :
  Py.string_literal (Py.repr s +:+ String Py.LF rest)
  = Some (s, String Py.LF rest).
Proof.
  unfold Py.repr. set (q := Py.repr_quote s).
  assert (Hq : q = Py.SQUOTE \/ q = Py.DQUOTE) by apply repr_quote_is_quote.
  cbn [String.append]. rewrite append_assoc. cbn [String.append].
  unfold Py.string_literal.
  assert (Ascii.eqb q Py.SQUOTE || Ascii.eqb q Py.DQUOTE = true) as ->.
  { by destruct Hq as [-> | ->]. }
  rewrite <- (literal_body_repr_body q s (String Py.LF rest) Hq).
  destruct s as [|c s]; cbn [Py.repr_body String.append].
  - assert (Ascii.eqb Py.LF q = false) as ->; [by destruct Hq as [-> | ->]|].
    by rewrite andb_false_r.
  - destruct (repr_char_head q c Hq) as (h & t & -> & Hh).
    rewrite append_assoc. cbn [String.append]. rewrite Hh.
    by destruct (t +:+ _).
Qed.

Lemma name_chars_append (n : string) c s :
  Py.name_chars n = (n, "") -> Py.name_char c = false ->
  Py.name_chars (n +:+ String c s) = (n, String c s).
Proof.
  intros Hn Hc. induction n as [|a n IH]; cbn [String.append Py.name_chars].
  - by rewrite Hc.
  - cbn [Py.name_chars] in Hn. destruct (Py.name_char a); [|discriminate].
    destruct (Py.name_chars n) as [m r]. injection Hn as -> ->.
    by rewrite IH.
Qed.

(** A line the emitter writes is read back as the binding it was
    written from. *)
Lemma assignment_repr (a : ascii) (n v rest : string) :
  Py.name_start a = true ->
  Py.name_chars (String a n) = (String a n, "") ->
  Py.assignment (String a n +:+ "=" +:+ Py.repr v +:+ String Py.LF rest)
  = Some (String a n, v, rest).
Proof.
  intros Ha Hn.
  pose proof (name_chars_append _ "=" (Py.repr v +:+ String Py.LF rest)
                Hn eq_refl) as Hname.
  unfold Py.assignment. cbn [String.append] in *.
  rewrite Ha, Hname, string_literal_repr.
  by rewrite Ascii.eqb_refl.
Qed.

Lemma exec_lines_step fuel s d name v rest :
  Py.assignment s = Some (name, v, rest) ->
  Py.exec_lines (S fuel) s d = Py.exec_lines fuel rest (<[name := v]> d).
Proof.
  intros H. destruct s; [discriminate|].
  cbn [Py.exec_lines]. by rewrite H.
Qed.

Lemma release_info_text_lines (b f c : string) :
  release_info_text (b, f, c)
  = "MYPAINT_VERSION_BASE" +:+ "=" +:+ Py.repr b +:+ String Py.LF
      ("MYPAINT_VERSION_FORMAL" +:+ "=" +:+ Py.repr f +:+ String Py.LF
         ("MYPAINT_VERSION_CEREMONIAL" +:+ "=" +:+ Py.repr c
            +:+ String Py.LF "")).
Proof.
  unfold release_info_text.
  by rewrite !append_assoc.
Qed.

(** Running the three lines binds the three names. *)
Lemma exec_release_info_text (b f c : string) :
  Py.exec (release_info_text (b, f, c)) ∅
  = Some (<["MYPAINT_VERSION_CEREMONIAL" := c]>
            (<["MYPAINT_VERSION_FORMAL" := f]>
               (<["MYPAINT_VERSION_BASE" := b]> ∅))).
Proof.
  unfold Py.exec. rewrite release_info_text_lines.
  rewrite length_append. cbn [String.length Nat.add].
  rewrite (exec_lines_step _ _ _ _ _ _
             (assignment_repr "M" "YPAINT_VERSION_BASE" b _ eq_refl eq_refl)).
  rewrite (exec_lines_step _ _ _ _ _ _
             (assignment_repr "M" "YPAINT_VERSION_FORMAL" f _ eq_refl eq_refl)).
  rewrite (exec_lines_step _ _ _ _ _ _
             (assignment_repr "M" "YPAINT_VERSION_CEREMONIAL" c _ eq_refl eq_refl)).
  reflexivity.
Qed.

(** Reading back what the emitter writes for a triple. *)
Lemma read_back (version gitprefix : string) (e : env) (t : versions) :
  release_info e = Some (release_info_text t) ->
  _get_versions version gitprefix e
  = {| stderr := []; ended := Return t |}.
Proof.
  destruct t as [[b f] c]. intros Hri. unfold _get_versions.
  rewrite Hri, exec_release_info_text. unfold Py.get.
  by simplify_map_eq.
Qed.

(** What [_get_release_info_script] returns is read back as the triple
    it was made from. *)
Lemma script_read_back (version gitprefix : string) (e0 : env)
    (script version' gitprefix' : string) (e : env) :
  ended (_get_release_info_script version gitprefix e0) = Return script ->
  release_info e = Some script ->
  ended (_get_versions version' gitprefix' e)
  = ended (_get_versions version gitprefix e0).
Proof.
  unfold _get_release_info_script. cbn [ended].
  destruct (ended (_get_versions version gitprefix e0)) as [t|x];
    [|discriminate].
  intros [= <-] Hri. by rewrite (read_back _ _ _ _ Hri).
Qed.

End RoundTrip.

(** ** [int] of the commits group *)

Section IntOfGroup.

Lemma int_digits_total (ds : string) :
  forall acc, Sre.all_match true Sre.ADigit ds ->
              exists n, Py.int_digits acc ds = Some n.
Proof.
  induction ds as [|c ds IH]; intros acc; cbn [Sre.all_match Py.int_digits].
  - eauto.
  - intros [Hc Hds]. cbn [Sre.atom_match] in Hc. rewrite Hc. eauto.
Qed.

(** [int] accepts whatever group 1 of pattern A captures, so the call
    [int(nrevs)] of line 221 never raises. *)
Lemma versions_of_describe_int_ok (version gitprefix git_desc : string) :
  versions_of_describe version gitprefix git_desc <> Raise IntError.
Proof.
  unfold versions_of_describe, parse_describe.
  destruct (Sre.re_match true (parse_re1 version) git_desc) as [g|] eqn:Hm1.
  - rewrite bind_return.
    destruct (parse_re1_groups _ _ _ Hm1) as (Hds & _ & _).
    destruct (g !! 1) as [ds|]; cbn [Py.of_group Py.truth]; [|done].
    destruct (Hds ds eq_refl) as [Hne Hdig].
    destruct (int_digits_total ds 0 Hdig) as [n Hn].
    assert (Py.int (Py.VStr ds) = Some n) as -> by (by destruct ds).
    destruct (negb (String.eqb ds "")); [|done].
    rewrite bind_return.
    destruct (n >? 0)%Z; [|done].
    by destruct (negb (Py.contains version "-")).
  - destruct (Sre.re_match true parse_re2 git_desc); [|done].
    by rewrite bind_return.
Qed.

End IntOfGroup.

(** ** The claims *)

(** C1. On a working copy, when the base version holds a hyphen and the
    stripped output of [git describe] matches pattern A with a count of
    commits (group 1, read by [int]) above zero, the call returns, and
    the formal version is the base version, a dot, and the count as it
    stands in the output. *)
Theorem C1_formal_version_of_prerelease
    (version gitprefix : string) (e : env) (out : string)
    (g : gmap nat string) (nrevs : string) (n : Z) :
  release_info e = None -> dot_git e = true -> git_describe e = Some out ->
  Py.contains version "-" = true ->
  Sre.re_match true (parse_re1 version) (Py.strip out) = Some g ->
  g !! 1 = Some nrevs ->
  Py.int (Py.VStr nrevs) = Some n -> (0 < n)%Z ->
  exists ceremonial,
    ended (_get_versions version gitprefix e)
    = Return (version, version +:+ "." +:+ nrevs, ceremonial).
Proof.
  intros Hri Hgit Hout Hhyphen Hm Hg Hint Hn.
  rewrite (get_versions_describe _ _ _ _ Hri Hgit Hout). cbn [ended].
  unfold versions_of_describe.
  rewrite (parse_describe_match1 _ _ _ Hm), Hg, bind_return.
  cbn [Py.of_group].
  rewrite (int_str_nonempty _ _ Hint), Hint, bind_return.
  assert ((n >? 0)%Z = true) as -> by lia.
  rewrite Hhyphen. cbn [negb Py.format_s]. rewrite bind_return. eauto.
Qed.

Lemma C1_witness :
  exists ceremonial,
    ended (_get_versions MYPAINT_VERSION "git"
             (env_git ("v1.2.0-beta.0-12-gabcdef0" +:+ String Py.LF "")))
    = Return (MYPAINT_VERSION, MYPAINT_VERSION +:+ "." +:+ "12", ceremonial).
Proof.
  eapply (C1_formal_version_of_prerelease MYPAINT_VERSION "git" _
            ("v1.2.0-beta.0-12-gabcdef0" +:+ String Py.LF "")
            _ "12" 12);
    reflexivity.
Defined.

(** C2. On a working copy, when the base version holds no hyphen and the
    stripped output of [git describe] matches pattern A with a count of
    commits above zero, the call returns no triple: it raises
    [ValueError]. *)
Theorem C2_final_release_with_commits_is_fatal
    (version gitprefix : string) (e : env) (out : string)
    (g : gmap nat string) (nrevs : string) (n : Z) :
  release_info e = None -> dot_git e = true -> git_describe e = Some out ->
  Py.contains version "-" = false ->
  Sre.re_match true (parse_re1 version) (Py.strip out) = Some g ->
  g !! 1 = Some nrevs ->
  Py.int (Py.VStr nrevs) = Some n -> (0 < n)%Z ->
  ended (_get_versions version gitprefix e)
  = Raise (ValueError (final_release_message version)).
Proof.
  intros Hri Hgit Hout Hhyphen Hm Hg Hint Hn.
  rewrite (get_versions_describe _ _ _ _ Hri Hgit Hout). cbn [ended].
  unfold versions_of_describe.
  rewrite (parse_describe_match1 _ _ _ Hm), Hg, bind_return.
  cbn [Py.of_group].
  rewrite (int_str_nonempty _ _ Hint), Hint, bind_return.
  assert ((n >? 0)%Z = true) as -> by lia.
  rewrite Hhyphen. reflexivity.
Qed.

Lemma C2_witness :
  ended (_get_versions "1.2.0" "git"
           (env_git ("v1.2.0-3-gabcdef0" +:+ String Py.LF "")))
  = Raise (ValueError (final_release_message "1.2.0")).
Proof.
  eapply (C2_final_release_with_commits_is_fatal "1.2.0" "git" _
            ("v1.2.0-3-gabcdef0" +:+ String Py.LF "") _ "3" 3);
    reflexivity.
Defined.

(** C7. On a working copy on which the [git describe] command fails, the
    call does not raise: it prints one line on standard error and
    returns the three strings made from the constant alone. *)
Theorem C7_describe_failure_falls_back
    (version gitprefix : string) (e : env) :
  release_info e = None -> dot_git e = true -> git_describe e = None ->
  _get_versions version gitprefix e
  = {| stderr := [describe_failed_message];
       ended := Return (version, version, version +:+ "+unknown") |}.
Proof. unfold _get_versions. by intros -> -> ->. Qed.

Lemma C7_witness :
  _get_versions MYPAINT_VERSION "git"
    {| release_info := None; dot_git := true; git_describe := None |}
  = {| stderr := [describe_failed_message];
       ended := Return ("1.2.0-beta.0", "1.2.0-beta.0",
                        "1.2.0-beta.0+unknown") |}.
Proof.
  apply (C7_describe_failure_falls_back MYPAINT_VERSION "git"); reflexivity.
Defined.

(** C8. With no [release_info] file and no [.git] directory the call
    returns the constant, the constant, and the constant followed by
    [+unknown], and prints nothing. *)
Theorem C8_no_file_no_repository
    (version gitprefix : string) (e : env) :
  release_info e = None -> dot_git e = false ->
  _get_versions version gitprefix e
  = {| stderr := [];
       ended := Return (version, version, version +:+ "+unknown") |}.
Proof. unfold _get_versions. by intros -> ->. Qed.

Lemma C8_witness :
  _get_versions MYPAINT_VERSION "gitexport"
    {| release_info := None; dot_git := false; git_describe := None |}
  = {| stderr := [];
       ended := Return ("1.2.0-beta.0", "1.2.0-beta.0",
                        "1.2.0-beta.0+unknown") |}.
Proof.
  apply (C8_no_file_no_repository MYPAINT_VERSION "gitexport"); reflexivity.
Defined.

(** C10. On a working copy whose stripped [git describe] output is
    [v<base>-0-g<sha>], with [sha] a non-empty run of hexadecimal
    digits, the call returns the base version as the formal version (no
    [.0] is appended) and the base version, [+], the prefix, a dot and
    [sha] as the ceremonial version. *)
Theorem C10_at_tag_long_format
    (version gitprefix : string) (e : env) (out sha : string) :
  release_info e = None -> dot_git e = true -> git_describe e = Some out ->
  Py.strip out = "v" +:+ version +:+ "-0-g" +:+ sha ->
  sha <> "" -> Sre.all_match true Sre.hex sha ->
  ended (_get_versions version gitprefix e)
  = Return (version, version,
            version +:+ "+" +:+ gitprefix +:+ "." +:+ sha).
Proof.
  intros Hri Hgit Hout Hdesc Hne Hhex.
  rewrite (get_versions_describe _ _ _ _ Hri Hgit Hout). cbn [ended].
  rewrite Hdesc. unfold versions_of_describe.
  rewrite (parse_describe_match1 _ _ _ (match1_at_tag_long _ _ Hne Hhex)).
  rewrite bind_return. simplify_map_eq.
  by destruct sha.
Qed.

Lemma C10_witness :
  ended (_get_versions MYPAINT_VERSION "git"
           (env_git ("v1.2.0-beta.0-0-gabcdef0" +:+ String Py.LF "")))
  = Return ("1.2.0-beta.0", "1.2.0-beta.0", "1.2.0-beta.0+git.abcdef0").
Proof.
  apply (C10_at_tag_long_format MYPAINT_VERSION "git" _
           ("v1.2.0-beta.0-0-gabcdef0" +:+ String Py.LF "") "abcdef0");
    try reflexivity; [discriminate | by vm_compute].
Defined.

(** C9. On a working copy whose stripped [git describe] output is seven
    or more hexadecimal digits followed by [-dirty], the call raises the
    parse error: pattern A wants a [v] first and pattern B wants
    hexadecimal digits up to the end. *)
Theorem C9_untagged_dirty_is_fatal
    (version gitprefix : string) (e : env) (out hexid : string) :
  release_info e = None -> dot_git e = true -> git_describe e = Some out ->
  Py.strip out = hexid +:+ "-dirty" ->
  7 <= String.length hexid -> Sre.all_match true Sre.hex hexid ->
  Sre.re_match true (parse_re1 version) (Py.strip out) = None
  /\ Sre.re_match true parse_re2 (Py.strip out) = None
  /\ ended (_get_versions version gitprefix e)
     = Raise (RuntimeError
                (parse_error_message version (hexid +:+ "-dirty"))).
Proof.
  intros Hri Hgit Hout Hdesc Hlen Hhex.
  rewrite (get_versions_describe _ _ _ _ Hri Hgit Hout). cbn [ended].
  rewrite Hdesc. unfold versions_of_describe, parse_describe.
  destruct hexid as [|c hexid]; [simpl in Hlen; lia|].
  destruct Hhex as [Hc _].
  change (String c hexid +:+ "-dirty") with (String c (hexid +:+ "-dirty")) at 1 3.
  rewrite (match1_hex_first version c _ Hc).
  rewrite (match2_dirty (String c hexid)).
  done.
Qed.

Lemma C9_witness :
  Sre.re_match true (parse_re1 MYPAINT_VERSION) "abcdef0-dirty" = None
  /\ Sre.re_match true parse_re2 "abcdef0-dirty" = None
  /\ ended (_get_versions MYPAINT_VERSION "git"
              (env_git ("abcdef0-dirty" +:+ String Py.LF "")))
     = Raise (RuntimeError
                (parse_error_message MYPAINT_VERSION "abcdef0-dirty")).
Proof.
  apply (C9_untagged_dirty_is_fatal MYPAINT_VERSION "git" _
           ("abcdef0-dirty" +:+ String Py.LF "") "abcdef0");
    first [reflexivity | by vm_compute].
Defined.

(** C3 (as amended). On a working copy whose stripped [git describe]
    output matches neither pattern A nor pattern B, the call raises
    [RuntimeError]; the message holds the name of the missing tag, the
    command, and the [repr] of the output, which is the output itself
    between quotes when the output is plain. *)
Theorem C3_unparsed_output_is_fatal
    (version gitprefix : string) (e : env) (out : string) :
  release_info e = None -> dot_git e = true -> git_describe e = Some out ->
  Sre.re_match true (parse_re1 version) (Py.strip out) = None ->
  Sre.re_match true parse_re2 (Py.strip out) = None ->
  exists msg,
    ended (_get_versions version gitprefix e) = Raise (RuntimeError msg)
    /\ Py.contains msg ("v" +:+ version) = true
    /\ Py.contains msg (Py.repr (Py.strip out)) = true
    /\ Py.contains msg "git describe --tags --long --dirty --always" = true
    /\ (Py.plain (Py.strip out) = true ->
        Py.contains msg (Py.strip out) = true).
Proof.
  intros Hri Hgit Hout Hm1 Hm2.
  rewrite (get_versions_describe _ _ _ _ Hri Hgit Hout). cbn [ended].
  unfold versions_of_describe, parse_describe. rewrite Hm1, Hm2.
  rewrite bind_raise. eexists. split; [reflexivity|].
  unfold parse_error_message. set (d := Py.strip out).
  split; [|split; [|split]].
  - do 14 apply contains_append_r.
    rewrite <- (append_assoc "v" version). apply contains_prefix.
  - do 10 apply contains_append_r. apply contains_prefix.
  - do 2 apply contains_append_r. apply (contains_prefix (Py.join " " cmd)).
  - intros Hplain. rewrite (repr_plain _ Hplain).
    do 10 apply contains_append_r.
    rewrite (append_assoc "'"). apply contains_append_r.
    rewrite (append_assoc d). apply contains_prefix.
Qed.

Lemma C3_witness :
  exists msg,
    ended (_get_versions MYPAINT_VERSION "git"
             (env_git ("garbage-xyz" +:+ String Py.LF "")))
    = Raise (RuntimeError msg)
    /\ Py.contains msg ("v" +:+ MYPAINT_VERSION) = true
    /\ Py.contains msg (Py.repr "garbage-xyz") = true
    /\ Py.contains msg "git describe --tags --long --dirty --always" = true
    /\ (Py.plain "garbage-xyz" = true ->
        Py.contains msg "garbage-xyz" = true).
Proof.
  apply (C3_unparsed_output_is_fatal MYPAINT_VERSION "git" _
           ("garbage-xyz" +:+ String Py.LF "")); reflexivity.
Defined.

(** C3, as it was stated, fails: the output [describe_of_other_tag]
    matches neither pattern and the call raises [RuntimeError], but the
    message does not hold the output, it holds its [repr], in which the
    two bytes outside ASCII are escaped. *)
Lemma C3_counterexample :
  Sre.re_match true (parse_re1 MYPAINT_VERSION)
    (Py.strip describe_of_other_tag) = None
  /\ Sre.re_match true parse_re2 (Py.strip describe_of_other_tag) = None
  /\ exists msg,
       ended (_get_versions MYPAINT_VERSION "git"
                (env_git describe_of_other_tag))
       = Raise (RuntimeError msg)
       /\ Py.contains msg (Py.strip describe_of_other_tag) = false.
Proof.
  split; [by vm_compute|]. split; [by vm_compute|].
  eexists. split; [reflexivity|]. by vm_compute.
Qed.

(** C4. The command is run with [--long], so its output names the
    object id whenever it names a tag.  On a working copy whose stripped
    [git describe] output matches pattern A with the dirty flag
    (group 3) captured next to that object id (group 2), a triple that
    is returned has a ceremonial version ending in [.dirty]: it is the
    formal version, [+], the prefix, a dot, the object id and
    [.dirty]. *)
Theorem C4_dirty_flag_in_ceremonial
    (version gitprefix : string) (e : env) (out : string)
    (g : gmap nat string) (h d b f c : string) :
  release_info e = None -> dot_git e = true -> git_describe e = Some out ->
  Sre.re_match true (parse_re1 version) (Py.strip out) = Some g ->
  g !! 2 = Some h ->
  g !! 3 = Some d ->
  ended (_get_versions version gitprefix e) = Return (b, f, c) ->
  Py.endswith c ".dirty" = true
  /\ c = f +:+ "+" +:+ gitprefix +:+ "." +:+ h +:+ ".dirty".
Proof.
  intros Hri Hgit Hout Hm Hh Hd.
  rewrite (get_versions_describe _ _ _ _ Hri Hgit Hout). cbn [ended].
  intros Hret.
  destruct (parse_re1_groups _ _ _ Hm) as (_ & Hsha & Hdirty).
  destruct (versions_of_describe_return _ _ _ _ _ _ _ _ _
              (parse_describe_match1 _ _ _ Hm) Hret) as (_ & _ & Hc).
  rewrite Hh, Hd in Hc. unfold build_ids in Hc.
  assert (Htd : Py.truthy (Some d) = true).
  { apply truthy_nonempty. apply Hdirty in Hd. by destruct d. }
  destruct (Hsha h Hh) as [Hne _].
  rewrite Htd, (truthy_nonempty _ Hne) in Hc.
  cbn [app default Py.join from_option id] in Hc.
  rewrite (append_assoc gitprefix), (append_assoc "." h) in Hc.
  split; [|exact Hc].
  apply endswith_iff. exists (f +:+ "+" +:+ gitprefix +:+ "." +:+ h).
  by rewrite Hc, !append_assoc.
Qed.

Lemma C4_witness :
  Py.endswith "1.2.0-beta.0.12+git.abcdef0.dirty" ".dirty" = true
  /\ "1.2.0-beta.0.12+git.abcdef0.dirty"
     = "1.2.0-beta.0.12" +:+ "+" +:+ "git" +:+ "." +:+ "abcdef0"
         +:+ ".dirty".
Proof.
  apply (C4_dirty_flag_in_ceremonial MYPAINT_VERSION "git"
           (env_git ("v1.2.0-beta.0-12-gabcdef0-dirty" +:+ String Py.LF ""))
           ("v1.2.0-beta.0-12-gabcdef0-dirty" +:+ String Py.LF "")
           {[ 1 := "12"; 2 := "abcdef0"; 3 := "dirty" ]}
           "abcdef0" "dirty" MYPAINT_VERSION);
    first [reflexivity | by vm_compute].
Defined.

(** C5 (as amended). A call that reads no [release_info] file and
    returns a triple returns one in which the base version is a prefix
    of the formal version and the formal version a prefix of the
    ceremonial version. *)
Theorem C5_each_version_extends_the_previous
    (version gitprefix : string) (e : env) (b f c : string) :
  release_info e = None ->
  ended (_get_versions version gitprefix e) = Return (b, f, c) ->
  Py.startswith f b = true /\ Py.startswith c f = true.
Proof.
  intros Hri. unfold _get_versions. rewrite Hri.
  assert (Hfallback :
    Return (version, version, version +:+ "+unknown") = Return (b, f, c) ->
    Py.startswith f b = true /\ Py.startswith c f = true).
  { intros [= <- <- <-]. split; apply startswith_iff;
      [exists ""; by rewrite append_nil_r | by exists "+unknown"]. }
  destruct (dot_git e); [|exact Hfallback].
  destruct (git_describe e) as [out|]; [|exact Hfallback].
  cbn [ended]. intros Hret.
  destruct (parse_describe version (Py.strip out))
    as [[[nrevs objsha] dirty]|] eqn:Hp.
  - destruct (versions_of_describe_return _ _ _ _ _ _ _ _ _ Hp Hret)
      as (Hb & Hf & Hc).
    rewrite Hb, Hc. split.
    + apply startswith_iff.
      destruct Hf as [-> | ->]; [exists ""; by rewrite append_nil_r | eauto].
    + apply startswith_iff.
      destruct (build_ids gitprefix objsha dirty);
        [exists ""; by rewrite append_nil_r | eauto].
  - unfold versions_of_describe in Hret. rewrite Hp in Hret. discriminate.
Qed.

Lemma C5_witness :
  Py.startswith "1.2.0-beta.0.12" "1.2.0-beta.0" = true
  /\ Py.startswith "1.2.0-beta.0.12+git.abcdef0" "1.2.0-beta.0.12" = true.
Proof.
  apply (C5_each_version_extends_the_previous MYPAINT_VERSION "git"
           (env_git ("v1.2.0-beta.0-12-gabcdef0" +:+ String Py.LF "")));
    first [reflexivity | by vm_compute].
Defined.

(** C5, as it was stated, fails on the path that reads [release_info]:
    the three strings are taken from the file as they are, and in the
    file [edited_release_info] the formal version does not start with
    the base version. *)
Lemma C5_counterexample :
  exists b f c,
    ended (_get_versions MYPAINT_VERSION "gitexport"
             (env_export edited_release_info)) = Return (b, f, c)
    /\ b = "1.2.0-beta.0" /\ f = "1.2.0"
    /\ Py.startswith f b = false.
Proof.
  exists "1.2.0-beta.0", "1.2.0", "1.2.0+gitexport.abcdef0".
  repeat split; by vm_compute.
Qed.

(** C6. For every triple of strings, a call that finds in
    [release_info] the three assignments written for the triple (each
    value as its [repr]) returns that triple. *)
Theorem C6_release_info_round_trip
    (version gitprefix : string) (e : env) (t : versions) :
  release_info e = Some (release_info_text t) ->
  ended (_get_versions version gitprefix e) = Return t.
Proof. intros Hri. by rewrite (read_back _ _ _ _ Hri). Qed.

Lemma C6_witness :
  ended (_get_versions MYPAINT_VERSION "gitexport"
           (env_export
              (release_info_text
                 ("1.2.0-beta.0", "1.2.0-beta.0.12",
                  "1.2.0-beta.0.12+git.abcdef0.dirty"))))
  = Return ("1.2.0-beta.0", "1.2.0-beta.0.12",
            "1.2.0-beta.0.12+git.abcdef0.dirty").
Proof.
  apply (C6_release_info_round_trip MYPAINT_VERSION "gitexport"); reflexivity.
Defined.

(** * Further properties *)

(** ** More matches computed for outputs of a given shape *)

Section MoreForward.
Context {R : Type}.
Implicit Types (k : nat -> string -> gmap nat string -> option R).

Lemma rmatch_opt_none ic r pos s g k :
  Sre.rmatch ic r pos s g k = None ->
  Sre.rmatch ic (Sre.ROpt r) pos s g k = k pos s g.
Proof. cbn [Sre.rmatch]. by intros ->. Qed.

(** The dirty part, when it is there. *)
Lemma rmatch_opt_dirty pos s g k res :
  k (S pos + 5) s (<[3 := "dirty"]> g) = Some res ->
  Sre.rmatch true opt_dirty pos ("-dirty" +:+ s) g k = Some res.
Proof.
  intros Hk. apply rmatch_opt_some.
  cbn [Sre.rmatch String.append].
  change (Sre.atom_match true (Sre.ALit "-") "-") with true. cbv iota.
  change (String "d" (String "i" (String "r" (String "t" (String "y" s)))))
    with ("dirty" +:+ s).
  rewrite rmatch_literal.
  by rewrite (take_consumed "dirty" s (S pos)).
Qed.

(** At the end of the subject the three optional parts are skipped. *)
Lemma rmatch_opts_at_end pos g :
  Sre.rmatch true (Sre.seq [opt_commits; opt_objsha; opt_dirty; Sre.REol])
    pos "" g (fun _ _ g' => Some g') = Some g.
Proof. reflexivity. Qed.

(** Letters of either case are accepted for the text of a pattern. *)
Lemma rmatch_literal_ignorecase x :
  forall y pos s g k,
    Sre.lower_string y = Sre.lower_string x ->
    Sre.rmatch true (Sre.literal x) pos (y +:+ s) g k
    = k (pos + String.length x) s g.
Proof.
  induction x as [|c x IH]; intros [|d y] pos s g k Hxy;
    try discriminate; cbn [Sre.literal Sre.rmatch String.append String.length].
  - by rewrite Nat.add_0_r.
  - cbn [Sre.lower_string] in Hxy. injection Hxy as Hc Hy.
    cbn [Sre.atom_match]. rewrite Hc, Ascii.eqb_refl.
    rewrite (IH _ _ _ _ _ Hy). by rewrite Nat.add_succ_comm.
Qed.

(** A repetition that wants more characters than the subject has
    fails. *)
Lemma repeat_greedy_short ic a s :
  forall lo pos (k : nat -> string -> option R),
    String.length s < lo ->
    Sre.repeat_greedy ic a lo pos s k = None.
Proof.
  induction s as [|c s IH]; intros lo pos k Hlo; cbn [Sre.repeat_greedy].
  - destruct lo; [simpl in Hlo; lia | done].
  - destruct lo as [|lo]; [simpl in Hlo; lia|].
    cbn [Nat.eqb pred]. rewrite IH; [|simpl in Hlo; lia].
    by destruct (Sre.atom_match ic a c).
Qed.

End MoreForward.

(** Pattern A on the long form [v<base>-<n>-g<sha>], with or without
    [-dirty]. *)
Lemma match1_long (version ds sha : string) (dirty : bool) :
  ds <> "" -> Sre.all_match true Sre.ADigit ds ->
  sha <> "" -> Sre.all_match true Sre.hex sha ->
  Sre.re_match true (parse_re1 version)
    ("v" +:+ version +:+ "-" +:+ ds +:+ "-g" +:+ sha
         +:+ (if dirty then "-dirty" else ""))
  = Some (if dirty
          then <[3 := "dirty"]> (<[2 := sha]> (<[1 := ds]> ∅))
          else <[2 := sha]> (<[1 := ds]> ∅)).
Proof.
  intros Hds Hdig Hsha Hhex. unfold Sre.re_match, parse_re1.
  cbn [Sre.seq Sre.rmatch String.append Nat.eqb].
  change (Sre.atom_match true (Sre.ALit "v") "v") with true. cbv iota.
  rewrite rmatch_literal.
  apply (rmatch_opt_commits ds _ ("-g" +:+ sha +:+ _));
    [done | by destruct ds; simpl; [|lia] | done |].
  apply (rmatch_opt_objsha sha _ (if dirty then "-dirty" else ""));
    [done | by destruct sha; simpl; [|lia] | by destruct dirty |].
  destruct dirty.
  - rewrite <- (append_nil_r "-dirty"). by apply rmatch_opt_dirty.
  - reflexivity.
Qed.

(** Pattern B on seven or more hexadecimal digits. *)
Lemma match2_hex (hexid : string) :
  7 <= String.length hexid -> Sre.all_match true Sre.hex hexid ->
  Sre.re_match true parse_re2 hexid = Some (<[1 := hexid]> ∅).
Proof.
  intros Hlen Hhex. rewrite <- (append_nil_r hexid) at 1.
  unfold Sre.re_match, parse_re2. cbn [Sre.seq Sre.rmatch Nat.eqb].
  apply repeat_greedy_run; [done..|].
  by rewrite (take_consumed hexid "" 0).
Qed.

(** Pattern B on fewer than seven characters. *)
Lemma match2_short (s : string) :
  String.length s < 7 -> Sre.re_match true parse_re2 s = None.
Proof.
  intros Hlen. unfold Sre.re_match, parse_re2.
  cbn [Sre.seq Sre.rmatch Nat.eqb]. by apply repeat_greedy_short.
Qed.

(** Pattern A on the tag alone, in any letter case. *)
Lemma match1_tag_ignorecase (version t : string) :
  Sre.lower_string t = Sre.lower_string ("v" +:+ version) ->
  Sre.re_match true (parse_re1 version) t = Some ∅.
Proof.
  destruct t as [|c y]; [discriminate|].
  cbn [String.append Sre.lower_string]. intros [= Hc Hy].
  unfold Sre.re_match, parse_re1.
  cbn [Sre.seq Nat.eqb]. cbn [Sre.rmatch Nat.eqb].
  assert (Sre.atom_match true (Sre.ALit "v") c = true) as ->.
  { cbn [Sre.atom_match]. rewrite Hc. apply Ascii.eqb_refl. }
  rewrite <- (append_nil_r y).
  rewrite (rmatch_literal_ignorecase _ _ _ _ _ _ Hy).
  apply (rmatch_opts_at_end (1 + String.length version) ∅).
Qed.

(** ** The resolver on outputs of a given shape *)

Section Shapes.
Variables version gitprefix : string.
Implicit Types (e : env) (out git_desc : string) (g : gmap nat string).

Lemma parse_describe_match2 git_desc g :
  Sre.re_match true (parse_re1 version) git_desc = None ->
  Sre.re_match true parse_re2 git_desc = Some g ->
  parse_describe version git_desc = Some (Py.VInt 0, g !! 1, None).
Proof. unfold parse_describe. by intros -> ->. Qed.

Lemma parse_describe_none git_desc :
  Sre.re_match true (parse_re1 version) git_desc = None ->
  Sre.re_match true parse_re2 git_desc = None ->
  versions_of_describe version gitprefix git_desc
  = Raise (RuntimeError (parse_error_message version git_desc)).
Proof.
  unfold versions_of_describe, parse_describe. by intros -> ->.
Qed.

(** Pattern A refuses every run of hexadecimal digits. *)
Lemma match1_hex (s : string) :
  Sre.all_match true Sre.hex s ->
  Sre.re_match true (parse_re1 version) s = None.
Proof.
  destruct s as [|c s]; [done|]. intros [Hc _]. by apply match1_hex_first.
Qed.

End Shapes.

(** The long form [v<base>-<n>-g<sha>], followed or not by [-dirty]. *)
Lemma versions_of_describe_long
    (version gitprefix ds sha : string) (dirty : bool) (n : Z) :
  Sre.all_match true Sre.ADigit ds -> Py.int (Py.VStr ds) = Some n ->
  ((0 < n)%Z -> Py.contains version "-" = true) ->
  sha <> "" -> Sre.all_match true Sre.hex sha ->
  let formal := if (n >? 0)%Z then version +:+ "." +:+ ds else version in
  versions_of_describe version gitprefix
    ("v" +:+ version +:+ "-" +:+ ds +:+ "-g" +:+ sha
         +:+ (if dirty then "-dirty" else ""))
  = Return (version, formal,
            formal +:+ "+" +:+ gitprefix +:+ "." +:+ sha
                   +:+ (if dirty then ".dirty" else "")).
Proof.
  intros Hdig Hint Hhyphen Hsha Hhex formal.
  assert (Hds : ds <> "") by (by destruct ds).
  unfold versions_of_describe.
  rewrite (parse_describe_match1 _ _ _
             (match1_long version ds sha dirty Hds Hdig Hsha Hhex)).
  rewrite bind_return.
  assert (Hgroups :
    (if dirty
     then <[3 := "dirty"]> (<[2 := sha]> (<[1 := ds]> (∅ : gmap nat string)))
     else <[2 := sha]> (<[1 := ds]> ∅)) !! 1 = Some ds
    /\ (if dirty
        then <[3 := "dirty"]> (<[2 := sha]> (<[1 := ds]> (∅ : gmap nat string)))
        else <[2 := sha]> (<[1 := ds]> ∅)) !! 2 = Some sha
    /\ (if dirty
        then <[3 := "dirty"]> (<[2 := sha]> (<[1 := ds]> (∅ : gmap nat string)))
        else <[2 := sha]> (<[1 := ds]> ∅)) !! 3
       = if dirty then Some "dirty" else None).
  { by destruct dirty. }
  destruct Hgroups as (-> & -> & ->). cbn [Py.of_group].
  rewrite (int_str_nonempty _ _ Hint), Hint, bind_return.
  unfold build_ids. rewrite (truthy_nonempty _ Hsha).
  assert (Hjoin : forall f : string,
    (let build_ids :=
       if Py.truthy (if dirty then Some "dirty" else None)
       then ([] ++ [gitprefix +:+ "." +:+ default "" (Some sha)]) ++ ["dirty"]
       else [] ++ [gitprefix +:+ "." +:+ default "" (Some sha)] in
     match build_ids with
     | [] => f
     | _ :: _ => f +:+ "+" +:+ Py.join "." build_ids
     end)
    = f +:+ "+" +:+ gitprefix +:+ "." +:+ sha
        +:+ (if dirty then ".dirty" else "")).
  { intros f. destruct dirty; cbn [Py.truthy app default from_option id Py.join].
    - by rewrite (append_assoc gitprefix), (append_assoc "." sha).
    - by rewrite append_nil_r. }
  subst formal. destruct (n >? 0)%Z eqn:Hn.
  - rewrite Hhyphen by lia. cbn [negb Py.format_s]. rewrite bind_return.
    cbv beta iota. by rewrite <- Hjoin.
  - rewrite bind_return. cbv beta iota. by rewrite <- Hjoin.
Qed.

(** X1. On a working copy whose stripped [git describe] output is the
    long form [v<base>-<n>-g<sha>], followed or not by [-dirty], the
    call returns: the formal version is the base version when [n] reads
    as zero and the base version, a dot and [n] otherwise (the base
    version then has to hold a hyphen); the ceremonial version is the
    formal version, [+], the prefix, a dot and [sha], with [.dirty] at
    the end when the output ends in [-dirty]. *)
Theorem X1_long_format
    (version gitprefix : string) (e : env) (out ds sha : string)
    (dirty : bool) (n : Z) :
  release_info e = None -> dot_git e = true -> git_describe e = Some out ->
  Py.strip out = "v" +:+ version +:+ "-" +:+ ds +:+ "-g" +:+ sha
                     +:+ (if dirty then "-dirty" else "") ->
  Sre.all_match true Sre.ADigit ds -> Py.int (Py.VStr ds) = Some n ->
  ((0 < n)%Z -> Py.contains version "-" = true) ->
  sha <> "" -> Sre.all_match true Sre.hex sha ->
  let formal := if (n >? 0)%Z then version +:+ "." +:+ ds else version in
  ended (_get_versions version gitprefix e)
  = Return (version, formal,
            formal +:+ "+" +:+ gitprefix +:+ "." +:+ sha
                   +:+ (if dirty then ".dirty" else "")).
Proof.
  intros Hri Hgit Hout Hdesc Hdig Hint Hhyphen Hsha Hhex.
  rewrite (get_versions_describe _ _ _ _ Hri Hgit Hout). cbn [ended].
  rewrite Hdesc. by apply versions_of_describe_long.
Qed.

Lemma X1_witness :
  ended (_get_versions MYPAINT_VERSION "git"
           (env_git ("v1.2.0-beta.0-12-gabcdef0-dirty" +:+ String Py.LF "")))
  = Return ("1.2.0-beta.0", "1.2.0-beta.0.12",
            "1.2.0-beta.0.12+git.abcdef0.dirty").
Proof.
  apply (X1_long_format MYPAINT_VERSION "git" _
           ("v1.2.0-beta.0-12-gabcdef0-dirty" +:+ String Py.LF "")
           "12" "abcdef0" true 12);
    first [reflexivity | discriminate | by vm_compute].
Defined.

(** X2. On a working copy whose stripped [git describe] output is a
    bare run of seven or more hexadecimal digits (no tag is reachable),
    the call returns the base version twice and, as the ceremonial
    version, the base version, [+], the prefix, a dot and the digits. *)
Theorem X2_bare_object_id
    (version gitprefix : string) (e : env) (out : string) :
  release_info e = None -> dot_git e = true -> git_describe e = Some out ->
  7 <= String.length (Py.strip out) ->
  Sre.all_match true Sre.hex (Py.strip out) ->
  ended (_get_versions version gitprefix e)
  = Return (version, version,
            version +:+ "+" +:+ gitprefix +:+ "." +:+ Py.strip out).
Proof.
  intros Hri Hgit Hout Hlen Hhex.
  rewrite (get_versions_describe _ _ _ _ Hri Hgit Hout). cbn [ended].
  unfold versions_of_describe.
  rewrite (parse_describe_match2 _ _ _ (match1_hex version _ Hhex)
             (match2_hex _ Hlen Hhex)).
  rewrite bind_return. simplify_map_eq.
  destruct (Py.strip out); [simpl in Hlen; lia | done].
Qed.

Lemma X2_witness :
  ended (_get_versions MYPAINT_VERSION "git"
           (env_git ("abcdef0" +:+ String Py.LF "")))
  = Return ("1.2.0-beta.0", "1.2.0-beta.0", "1.2.0-beta.0+git.abcdef0").
Proof.
  apply (X2_bare_object_id MYPAINT_VERSION "git" _
           ("abcdef0" +:+ String Py.LF ""));
    first [reflexivity | by vm_compute].
Defined.

(** X3. On a working copy whose stripped [git describe] output is fewer
    than seven hexadecimal digits (none at all included), the call
    raises the parse error: pattern B wants seven. *)
Theorem X3_short_object_id_is_fatal
    (version gitprefix : string) (e : env) (out : string) :
  release_info e = None -> dot_git e = true -> git_describe e = Some out ->
  String.length (Py.strip out) < 7 ->
  Sre.all_match true Sre.hex (Py.strip out) ->
  ended (_get_versions version gitprefix e)
  = Raise (RuntimeError (parse_error_message version (Py.strip out))).
Proof.
  intros Hri Hgit Hout Hlen Hhex.
  rewrite (get_versions_describe _ _ _ _ Hri Hgit Hout). cbn [ended].
  apply parse_describe_none; [by apply match1_hex | by apply match2_short].
Qed.

Lemma X3_witness :
  ended (_get_versions MYPAINT_VERSION "git"
           (env_git ("abcdef" +:+ String Py.LF "")))
  = Raise (RuntimeError (parse_error_message MYPAINT_VERSION "abcdef")).
Proof.
  apply (X3_short_object_id_is_fatal MYPAINT_VERSION "git" _
           ("abcdef" +:+ String Py.LF ""));
    first [reflexivity | by vm_compute].
Defined.

(** X4. On a working copy whose stripped [git describe] output is the
    tag [v<base>] with nothing after it, in any letter case, the call
    returns the base version three times: no dotted suffix, no build
    part, and the letter case of the constant, not of the tag. *)
Theorem X4_tag_alone_any_case
    (version gitprefix : string) (e : env) (out : string) :
  release_info e = None -> dot_git e = true -> git_describe e = Some out ->
  Sre.lower_string (Py.strip out) = Sre.lower_string ("v" +:+ version) ->
  ended (_get_versions version gitprefix e)
  = Return (version, version, version).
Proof.
  intros Hri Hgit Hout Hcase.
  rewrite (get_versions_describe _ _ _ _ Hri Hgit Hout). cbn [ended].
  unfold versions_of_describe.
  rewrite (parse_describe_match1 _ _ _ (match1_tag_ignorecase _ _ Hcase)).
  by rewrite bind_return.
Qed.

Lemma X4_witness :
  ended (_get_versions MYPAINT_VERSION "git"
           (env_git ("V1.2.0-BETA.0" +:+ String Py.LF "")))
  = Return ("1.2.0-beta.0", "1.2.0-beta.0", "1.2.0-beta.0").
Proof.
  apply (X4_tag_alone_any_case MYPAINT_VERSION "git" _
           ("V1.2.0-BETA.0" +:+ String Py.LF ""));
    first [reflexivity | by vm_compute].
Defined.

(** ** How a call on a working copy can end *)

Section Endings.
Variables version gitprefix : string.
Implicit Types (git_desc : string) (g : gmap nat string).

(** Pattern A matched: the call raises [ValueError] when the count of
    commits is above zero and the base version holds no hyphen, and
    returns otherwise. *)
Lemma versions_of_describe_match1 git_desc g :
  Sre.re_match true (parse_re1 version) git_desc = Some g ->
  ((exists ds n, g !! 1 = Some ds /\ Py.int (Py.VStr ds) = Some n
                 /\ (0 < n)%Z /\ Py.contains version "-" = false)
   /\ versions_of_describe version gitprefix git_desc
      = Raise (ValueError (final_release_message version)))
  \/ ((forall ds n, g !! 1 = Some ds -> Py.int (Py.VStr ds) = Some n ->
                    (0 < n)%Z -> Py.contains version "-" = true)
      /\ exists f c,
           versions_of_describe version gitprefix git_desc
           = Return (version, f, c)
           /\ (Py.contains version "-" = false -> f = version)).
Proof.
  intros Hm. unfold versions_of_describe.
  rewrite (parse_describe_match1 _ _ _ Hm), bind_return.
  destruct (parse_re1_groups _ _ _ Hm) as (Hds & _ & _).
  destruct (g !! 1) as [ds|]; cbn [Py.of_group Py.truth].
  - destruct (Hds ds eq_refl) as [Hne Hdig].
    destruct (int_digits_total ds 0 Hdig) as [n Hn].
    assert (Hint : Py.int (Py.VStr ds) = Some n) by (by destruct ds).
    rewrite Hint.
    assert (negb (String.eqb ds "") = true) as ->.
    { apply negb_true_iff, String.eqb_neq, Hne. }
    rewrite bind_return. destruct (n >? 0)%Z eqn:Hpos.
    + destruct (Py.contains version "-") eqn:Hhyphen; cbn [negb].
      * right. split; [done|]. eexists _, _.
        split; [reflexivity | done].
      * left. split; [|done]. exists ds, n. repeat split; [done | lia].
    + right. split.
      * intros ds' n' [= <-]. rewrite Hint. intros [= <-]. lia.
      * eexists _, _. split; [reflexivity | done].
  - right. split; [done|]. eexists _, _.
    split; [reflexivity | done].
Qed.

(** Pattern B matched and pattern A did not: the call returns. *)
Lemma versions_of_describe_match2 git_desc g :
  Sre.re_match true (parse_re1 version) git_desc = None ->
  Sre.re_match true parse_re2 git_desc = Some g ->
  exists c, versions_of_describe version gitprefix git_desc
            = Return (version, version, c).
Proof.
  intros Hm1 Hm2. unfold versions_of_describe.
  rewrite (parse_describe_match2 _ _ _ Hm1 Hm2), bind_return.
  eexists. reflexivity.
Qed.

End Endings.

(** X5. A call that reads no [release_info] file ends in one of three
    ways: it returns a triple, it raises [RuntimeError] with the parse
    message for the stripped output of [git describe], or it raises
    [ValueError] with the final-release message.  In particular
    [int(nrevs)] never fails. *)
Theorem X5_endings_without_release_info
    (version gitprefix : string) (e : env) :
  release_info e = None ->
  (exists t, ended (_get_versions version gitprefix e) = Return t)
  \/ (exists out,
        git_describe e = Some out
        /\ ended (_get_versions version gitprefix e)
           = Raise (RuntimeError
                      (parse_error_message version (Py.strip out))))
  \/ ended (_get_versions version gitprefix e)
     = Raise (ValueError (final_release_message version)).
Proof.
  intros Hri. unfold _get_versions. rewrite Hri.
  destruct (dot_git e); [|left; eauto].
  destruct (git_describe e) as [out|]; [|left; eauto].
  cbn [ended].
  destruct (Sre.re_match true (parse_re1 version) (Py.strip out))
    as [g|] eqn:Hm1.
  - destruct (versions_of_describe_match1 version gitprefix _ _ Hm1)
      as [[_ ->] | [_ (f & c & -> & _)]]; [by right; right | left; eauto].
  - destruct (Sre.re_match true parse_re2 (Py.strip out)) as [g|] eqn:Hm2.
    + destruct (versions_of_describe_match2 version gitprefix _ _ Hm1 Hm2)
        as [c ->]. left. eauto.
    + right. left. exists out. split; [done|].
      by apply parse_describe_none.
Qed.

Lemma X5_witness :
  (exists t, ended (_get_versions MYPAINT_VERSION "git"
                      (env_git "garbage-xyz")) = Return t)
  \/ (exists out,
        git_describe (env_git "garbage-xyz") = Some out
        /\ ended (_get_versions MYPAINT_VERSION "git" (env_git "garbage-xyz"))
           = Raise (RuntimeError
                      (parse_error_message MYPAINT_VERSION (Py.strip out))))
  \/ ended (_get_versions MYPAINT_VERSION "git" (env_git "garbage-xyz"))
     = Raise (ValueError (final_release_message MYPAINT_VERSION)).
Proof.
  apply (X5_endings_without_release_info MYPAINT_VERSION "git"
           (env_git "garbage-xyz")).
  reflexivity.
Defined.

(** X6. On a working copy whose [git describe] ran, the call raises
    [RuntimeError] exactly when the stripped output matches neither
    pattern A nor pattern B. *)
Theorem X6_runtime_error_iff_no_match
    (version gitprefix : string) (e : env) (out : string) :
  release_info e = None -> dot_git e = true -> git_describe e = Some out ->
  (exists msg,
     ended (_get_versions version gitprefix e) = Raise (RuntimeError msg))
  <-> Sre.re_match true (parse_re1 version) (Py.strip out) = None
      /\ Sre.re_match true parse_re2 (Py.strip out) = None.
Proof.
  intros Hri Hgit Hout.
  rewrite (get_versions_describe _ _ _ _ Hri Hgit Hout). cbn [ended].
  split.
  - intros [msg Hraise].
    destruct (Sre.re_match true (parse_re1 version) (Py.strip out))
      as [g|] eqn:Hm1.
    + destruct (versions_of_describe_match1 version gitprefix _ _ Hm1)
        as [[_ H] | [_ (f & c & H & _)]]; rewrite H in Hraise; discriminate.
    + destruct (Sre.re_match true parse_re2 (Py.strip out)) as [g|] eqn:Hm2;
        [|done].
      destruct (versions_of_describe_match2 version gitprefix _ _ Hm1 Hm2)
        as [c H].
      rewrite H in Hraise. discriminate.
  - intros [Hm1 Hm2]. eexists. by apply parse_describe_none.
Qed.

Lemma X6_witness :
  (exists msg,
     ended (_get_versions MYPAINT_VERSION "git" (env_git "garbage-xyz"))
     = Raise (RuntimeError msg))
  <-> Sre.re_match true (parse_re1 MYPAINT_VERSION) (Py.strip "garbage-xyz")
      = None
      /\ Sre.re_match true parse_re2 (Py.strip "garbage-xyz") = None.
Proof.
  apply (X6_runtime_error_iff_no_match MYPAINT_VERSION "git"
           (env_git "garbage-xyz") "garbage-xyz"); reflexivity.
Defined.

(** X7. On a working copy whose [git describe] ran, the call raises
    [ValueError] exactly when the base version holds no hyphen and the
    stripped output matches pattern A with a count of commits above
    zero. *)
Theorem X7_value_error_iff_commits_after_final
    (version gitprefix : string) (e : env) (out : string) :
  release_info e = None -> dot_git e = true -> git_describe e = Some out ->
  (exists msg,
     ended (_get_versions version gitprefix e) = Raise (ValueError msg))
  <-> Py.contains version "-" = false
      /\ exists g ds n,
           Sre.re_match true (parse_re1 version) (Py.strip out) = Some g
           /\ g !! 1 = Some ds /\ Py.int (Py.VStr ds) = Some n /\ (0 < n)%Z.
Proof.
  intros Hri Hgit Hout.
  rewrite (get_versions_describe _ _ _ _ Hri Hgit Hout). cbn [ended].
  split.
  - intros [msg Hraise].
    destruct (Sre.re_match true (parse_re1 version) (Py.strip out))
      as [g|] eqn:Hm1.
    + destruct (versions_of_describe_match1 version gitprefix _ _ Hm1)
        as [[(ds & n & Hds & Hint & Hn & Hhyphen) _] | [_ (f & c & H & _)]].
      * split; [done|]. by exists g, ds, n.
      * rewrite H in Hraise. discriminate.
    + destruct (Sre.re_match true parse_re2 (Py.strip out)) as [g|] eqn:Hm2.
      * destruct (versions_of_describe_match2 version gitprefix _ _ Hm1 Hm2)
          as [c H].
        rewrite H in Hraise. discriminate.
      * rewrite (parse_describe_none _ _ _ Hm1 Hm2) in Hraise. discriminate.
  - intros (Hhyphen & g & ds & n & Hm1 & Hds & Hint & Hn).
    destruct (versions_of_describe_match1 version gitprefix _ _ Hm1)
      as [[_ ->] | [Hok _]]; [eauto|].
    rewrite (Hok ds n Hds Hint Hn) in Hhyphen. discriminate.
Qed.

Lemma X7_witness :
  (exists msg,
     ended (_get_versions "1.2.0" "git" (env_git "v1.2.0-3-gabcdef0"))
     = Raise (ValueError msg))
  <-> Py.contains "1.2.0" "-" = false
      /\ exists g ds n,
           Sre.re_match true (parse_re1 "1.2.0") (Py.strip "v1.2.0-3-gabcdef0")
           = Some g
           /\ g !! 1 = Some ds /\ Py.int (Py.VStr ds) = Some n /\ (0 < n)%Z.
Proof.
  apply (X7_value_error_iff_commits_after_final "1.2.0" "git"
           (env_git "v1.2.0-3-gabcdef0") "v1.2.0-3-gabcdef0"); reflexivity.
Defined.

(** X8. When the base version holds no hyphen (a final release), a call
    that reads no [release_info] file and returns a triple returns the
    base version as the formal version too: a final release is never
    given a dotted suffix. *)
Theorem X8_final_release_is_not_decorated
    (version gitprefix : string) (e : env) (b f c : string) :
  release_info e = None ->
  Py.contains version "-" = false ->
  ended (_get_versions version gitprefix e) = Return (b, f, c) ->
  b = version /\ f = version.
Proof.
  intros Hri Hhyphen. unfold _get_versions. rewrite Hri.
  destruct (dot_git e); [|by intros [= <- <- <-]].
  destruct (git_describe e) as [out|]; [|by intros [= <- <- <-]].
  cbn [ended].
  destruct (Sre.re_match true (parse_re1 version) (Py.strip out))
    as [g|] eqn:Hm1.
  - destruct (versions_of_describe_match1 version gitprefix _ _ Hm1)
      as [[_ ->] | [_ (f' & c' & -> & Hf)]]; [discriminate|].
    intros [= <- <- <-]. auto.
  - destruct (Sre.re_match true parse_re2 (Py.strip out)) as [g|] eqn:Hm2.
    + destruct (versions_of_describe_match2 version gitprefix _ _ Hm1 Hm2)
        as [c' ->].
      by intros [= <- <- <-].
    + by rewrite (parse_describe_none _ _ _ Hm1 Hm2).
Qed.

Lemma X8_witness :
  "1.2.0" = "1.2.0" /\ "1.2.0" = "1.2.0".
Proof.
  apply (X8_final_release_is_not_decorated "1.2.0" "git"
           (env_git "v1.2.0-0-gabcdef0") "1.2.0" "1.2.0" "1.2.0+git.abcdef0");
    reflexivity.
Defined.

(** ** What the prefix and the surroundings can change *)



(** X11. A [release_info] file that binds the base version only gives
    that base version, and for the two names it leaves out the values
    made from the constant of the module, not from the base version of
    the file. *)
Theorem X11_missing_keys_fall_back_to_the_constant
    (version gitprefix : string) (e : env) (b : string) :
  release_info e
  = Some ("MYPAINT_VERSION_BASE" +:+ "=" +:+ Py.repr b +:+ String Py.LF "") ->
  ended (_get_versions version gitprefix e)
  = Return (b, version, version +:+ "+unknown").
Proof.
  intros Hri. unfold _get_versions. rewrite Hri. unfold Py.exec.
  rewrite length_append. cbn [String.length Nat.add].
  rewrite (exec_lines_step _ _ _ _ _ _
             (assignment_repr "M" "YPAINT_VERSION_BASE" b _ eq_refl eq_refl)).
  cbn [Py.exec_lines ended]. unfold Py.get. by simplify_map_eq.
Qed.

Lemma X11_witness :
  ended (_get_versions MYPAINT_VERSION "gitexport"
           (env_export ("MYPAINT_VERSION_BASE" +:+ "=" +:+ Py.repr "1.1.0"
                          +:+ String Py.LF "")))
  = Return ("1.1.0", "1.2.0-beta.0", "1.2.0-beta.0+unknown").
Proof.
  apply (X11_missing_keys_fall_back_to_the_constant MYPAINT_VERSION
           "gitexport"); reflexivity.
Defined.

(** ** White space around the output of the command *)

Section Strip.
Implicit Types (s : string) (c : ascii).

Lemma rstrip_space s c :
  Py.isspace c = true -> Py.rstrip (s +:+ String c "") = Py.rstrip s.
Proof.
  intros Hc. induction s as [|a s IH]; cbn [String.append Py.rstrip].
  - by rewrite Hc.
  - by rewrite IH.
Qed.

Lemma lstrip_space s c :
  Py.isspace c = true ->
  Py.lstrip (s +:+ String c "") = Py.lstrip s +:+ String c ""
  \/ (Py.lstrip (s +:+ String c "") = "" /\ Py.lstrip s = "").
Proof.
  intros Hc. induction s as [|a s IH]; cbn [String.append Py.lstrip].
  - right. by rewrite Hc.
  - destruct (Py.isspace a); [exact IH | by left].
Qed.

Lemma strip_space s c :
  Py.isspace c = true -> Py.strip (s +:+ String c "") = Py.strip s.
Proof.
  intros Hc. unfold Py.strip.
  destruct (lstrip_space s c Hc) as [-> | [-> ->]]; [|done].
  by apply rstrip_space.
Qed.

End Strip.

(** X12. A white-space character after the output of [git describe]
    (the line feed the command prints, for one) changes nothing in what
    the call does. *)
Theorem X12_trailing_space_is_dropped
    (version gitprefix out : string) (c : ascii) :
  Py.isspace c = true ->
  _get_versions version gitprefix (env_git (out +:+ String c ""))
  = _get_versions version gitprefix (env_git out).
Proof.
  intros Hc. unfold _get_versions, env_git. cbn [release_info dot_git git_describe].
  by rewrite (strip_space _ _ Hc).
Qed.

Lemma X12_witness :
  _get_versions MYPAINT_VERSION "git"
    (env_git ("v1.2.0-beta.0-12-gabcdef0" +:+ String Py.LF ""))
  = _get_versions MYPAINT_VERSION "git" (env_git "v1.2.0-beta.0-12-gabcdef0").
Proof.
  apply (X12_trailing_space_is_dropped MYPAINT_VERSION "git"). reflexivity.
Defined.

(** ** From the working copy to the export *)

(** X13. The text [_get_release_info_script] returns is a fixed point:
    a call that finds this text in [release_info] returns the same text
    again, whatever its constant and prefix are. *)
Theorem X13_script_is_stable
    (version gitprefix : string) (e0 : env)
    (script version' gitprefix' : string) (e : env) :
  ended (_get_release_info_script version gitprefix e0) = Return script ->
  release_info e = Some script ->
  ended (_get_release_info_script version' gitprefix' e) = Return script.
Proof.
  intros Hscript Hri.
  pose proof (script_read_back _ _ _ _ version' gitprefix' _ Hscript Hri)
    as Hback.
  unfold _get_release_info_script in *. cbn [ended] in *.
  rewrite Hback.
  by destruct (ended (_get_versions version gitprefix e0)).
Qed.

Lemma X13_witness :
  ended (_get_release_info_script "2.0.0" "gitexport"
           (env_export
              (release_info_text
                 ("1.2.0-beta.0", "1.2.0-beta.0.12",
                  "1.2.0-beta.0.12+git.abcdef0"))))
  = Return (release_info_text
              ("1.2.0-beta.0", "1.2.0-beta.0.12",
               "1.2.0-beta.0.12+git.abcdef0")).
Proof.
  apply (X13_script_is_stable MYPAINT_VERSION "git"
           (env_git "v1.2.0-beta.0-12-gabcdef0") _ "2.0.0" "gitexport");
    first [reflexivity | by vm_compute].
Defined.

(** X14. The module run as a script in a working copy whose stripped
    [git describe] output is [v<MYPAINT_VERSION>-<n>-g<sha>], with [n]
    above zero, prints a text with which, as [release_info], every
    later call returns the constant, the constant with [.<n>], and that
    with [+gitexport.<sha>]: the export is labelled [gitexport], and
    the prefix of the later call is not used. *)
Theorem X14_script_then_export
    (e0 : env) (out ds sha : string) (n : Z) :
  release_info e0 = None -> dot_git e0 = true -> git_describe e0 = Some out ->
  Py.strip out = "v" +:+ MYPAINT_VERSION +:+ "-" +:+ ds +:+ "-g" +:+ sha ->
  Sre.all_match true Sre.ADigit ds -> Py.int (Py.VStr ds) = Some n ->
  (0 < n)%Z ->
  sha <> "" -> Sre.all_match true Sre.hex sha ->
  exists script,
    ended (main e0) = Return script
    /\ forall version gitprefix e,
         release_info e = Some script ->
         ended (_get_versions version gitprefix e)
         = Return (MYPAINT_VERSION,
                   MYPAINT_VERSION +:+ "." +:+ ds,
                   MYPAINT_VERSION +:+ "." +:+ ds
                     +:+ "+gitexport." +:+ sha).
Proof.
  intros Hri Hgit Hout Hdesc Hdig Hint Hn Hsha Hhex.
  unfold main, _get_release_info_script.
  rewrite (get_versions_describe _ _ _ _ Hri Hgit Hout). cbn [ended].
  pose proof (versions_of_describe_long MYPAINT_VERSION default_gitprefix
                ds sha false n Hdig Hint (fun _ => eq_refl) Hsha Hhex) as Hlong.
  cbv beta iota zeta in Hlong. rewrite !append_nil_r in Hlong.
  assert ((n >? 0)%Z = true) as Hpos by lia. rewrite Hpos in Hlong.
  rewrite Hdesc, Hlong.
  eexists. split; [reflexivity|].
  intros version gitprefix e Hri'.
  by rewrite (read_back _ _ _ _ Hri').
Qed.

Lemma X14_witness :
  exists script,
    ended (main (env_git ("v1.2.0-beta.0-12-gabcdef0" +:+ String Py.LF "")))
    = Return script
    /\ forall version gitprefix e,
         release_info e = Some script ->
         ended (_get_versions version gitprefix e)
         = Return (MYPAINT_VERSION,
                   MYPAINT_VERSION +:+ "." +:+ "12",
                   MYPAINT_VERSION +:+ "." +:+ "12"
                     +:+ "+gitexport." +:+ "abcdef0").
Proof.
  apply (X14_script_then_export _
           ("v1.2.0-beta.0-12-gabcdef0" +:+ String Py.LF "") "12" "abcdef0" 12);
    first [reflexivity | discriminate | by vm_compute].
Defined.

(** ** What pattern A accepts *)

Section Inversion.
Implicit Types (s : string) (g : gmap nat string).

Lemma lit_hyphen (c : ascii) :
  Sre.atom_match true (Sre.ALit "-") c = true -> c = "-"%char.
Proof.
  destruct c as [[] [] [] [] [] [] [] []]; vm_compute;
    first [discriminate | reflexivity].
Qed.

Lemma lit_ignorecase (l c : ascii) :
  Sre.atom_match true (Sre.ALit l) c = true -> Sre.lower c = Sre.lower l.
Proof. cbn [Sre.atom_match]. by intros ?%Ascii.eqb_eq. Qed.

Lemma rsem_literal_ignorecase x :
  forall pos s g p s' g',
    Sre.rsem true (Sre.literal x) pos s g p s' g' ->
    exists y, s = y +:+ s' /\ Sre.lower_string y = Sre.lower_string x
              /\ p = pos + String.length y /\ g' = g.
Proof.
  induction x as [|c x IH]; intros pos s g p s' g'; cbn [Sre.literal Sre.rsem].
  - intros (-> & -> & ->). exists "". simpl. by rewrite Nat.add_0_r.
  - intros (p1 & s1 & g1 & (d & -> & Hd & -> & ->) & H).
    apply IH in H as (y & -> & Hy & -> & ->).
    exists (String d y). cbn [String.append Sre.lower_string String.length].
    rewrite Hy, (lit_ignorecase _ _ Hd). repeat split; lia.
Qed.

Lemma rsem_opt_commits_text pos s g p s' g' :
  Sre.rsem true opt_commits pos s g p s' g' ->
  (s' = s /\ g' = g)
  \/ exists ds, s = "-" +:+ ds +:+ s' /\ ds <> ""
                /\ Sre.all_match true Sre.ADigit ds /\ g' = <[1 := ds]> g.
Proof.
  unfold opt_commits. cbn [Sre.rsem].
  intros [(p1 & s1 & g1 & (c & -> & Hc & -> & ->) & H) | (_ & -> & ->)];
    [right | by left].
  apply (rsem_group_repeat true 1 1 Sre.ADigit) in H
    as (ds & -> & Hall & Hlo & ->).
  exists ds. rewrite (lit_hyphen _ Hc). auto using length_nonempty.
Qed.

Lemma rsem_opt_objsha_text pos s g p s' g' :
  Sre.rsem true opt_objsha pos s g p s' g' ->
  (s' = s /\ g' = g)
  \/ exists c h, s = "-" +:+ String c (h +:+ s') /\ Sre.lower c = "g"%char
                 /\ h <> "" /\ Sre.all_match true Sre.hex h
                 /\ g' = <[2 := h]> g.
Proof.
  unfold opt_objsha. cbn [Sre.rsem].
  intros [(p1 & s1 & g1 & (c & -> & Hc & -> & ->)
           & (p2 & s2 & g2 & (c2 & -> & Hc2 & -> & ->) & H))
         | (_ & -> & ->)]; [right | by left].
  apply (rsem_group_repeat true 2 1 Sre.hex) in H
    as (h & -> & Hall & Hlo & ->).
  exists c2, h. rewrite (lit_hyphen _ Hc).
  repeat split; auto using length_nonempty. apply (lit_ignorecase "g" _ Hc2).
Qed.

Lemma rsem_group_literal_ignorecase i x pos s g p s' g' :
  Sre.rsem true (Sre.RGroup i (Sre.literal x)) pos s g p s' g' ->
  exists y, s = y +:+ s' /\ Sre.lower_string y = Sre.lower_string x
            /\ g' = <[i := y]> g.
Proof.
  cbn [Sre.rsem]. intros (g0 & H & ->).
  apply rsem_literal_ignorecase in H as (y & -> & Hy & -> & ->).
  exists y. by rewrite take_consumed.
Qed.

Lemma rsem_opt_dirty_text pos s g p s' g' :
  Sre.rsem true opt_dirty pos s g p s' g' ->
  (s' = s /\ g' = g)
  \/ exists d, s = "-" +:+ d +:+ s' /\ Sre.lower_string d = "dirty"
               /\ g' = <[3 := d]> g.
Proof.
  unfold opt_dirty. cbn [Sre.rsem].
  intros [(p1 & s1 & g1 & (c & -> & Hc & -> & ->) & H) | (_ & -> & ->)];
    [right | by left].
  apply rsem_group_literal_ignorecase in H as (d & -> & Hd & ->).
  exists d. by rewrite (lit_hyphen _ Hc).
Qed.

End Inversion.

(** What a match of pattern A says about the subject and the groups. *)
Lemma parse_re1_inversion
    (version desc : string) (g : gmap nat string) :
  Sre.re_match true (parse_re1 version) desc = Some g ->
  exists tag commits objsha dirty tail,
    desc = tag +:+ commits +:+ objsha +:+ dirty +:+ tail
    /\ Sre.lower_string tag = Sre.lower_string ("v" +:+ version)
    /\ ((commits = "" /\ g !! 1 = None)
        \/ exists ds, commits = "-" +:+ ds /\ ds <> ""
                      /\ Sre.all_match true Sre.ADigit ds
                      /\ g !! 1 = Some ds)
    /\ ((objsha = "" /\ g !! 2 = None)
        \/ exists c h, objsha = "-" +:+ String c h /\ Sre.lower c = "g"%char
                       /\ h <> "" /\ Sre.all_match true Sre.hex h
                       /\ g !! 2 = Some h)
    /\ ((dirty = "" /\ g !! 3 = None)
        \/ exists d, dirty = "-" +:+ d /\ Sre.lower_string d = "dirty"
                     /\ g !! 3 = Some d)
    /\ Sre.at_end tail = true.
Proof.
  unfold Sre.re_match. intros H.
  apply rmatch_sound in H as (p & s' & g' & H & [= ->]).
  unfold parse_re1 in H. cbn [Sre.seq] in H.
  destruct H as (p1 & s1 & g1 & (_ & -> & -> & ->) & H).
  destruct H as (p2 & s2 & g2 & (c & -> & Hv & -> & ->) & H).
  destruct H as (p3 & s3 & g3 & Hlit & H).
  apply rsem_literal_ignorecase in Hlit as (y & -> & Hy & -> & ->).
  destruct H as (p4 & s4 & g4 & H1 & H).
  destruct H as (p5 & s5 & g5 & H2 & H).
  destruct H as (p6 & s6 & g6 & H3 & H).
  destruct H as (p7 & s7 & g7 & (Hend & -> & -> & ->) & (_ & -> & ->)).
  apply rsem_opt_commits_text in H1. apply rsem_opt_objsha_text in H2.
  apply rsem_opt_dirty_text in H3.
  assert (Htag : Sre.lower_string (String c y)
                 = Sre.lower_string ("v" +:+ version)).
  { cbn [String.append Sre.lower_string].
    by rewrite Hy, (lit_ignorecase _ _ Hv). }
  destruct H1 as [[-> ->] | (ds & -> & Hds & Hdig & ->)];
    destruct H2 as [[-> ->] | (c2 & h & -> & Hg & Hh & Hhex & ->)];
    destruct H3 as [[-> ->] | (d & -> & Hd & ->)].
  - eexists (String c y), "", "", "", _.
    split; [reflexivity|]. split; [done|].
    split; [by left|]. split; [by left|]. split; [by left|]. done.
  - eexists (String c y), "", "", ("-" +:+ d), _.
    split; [reflexivity|]. split; [done|].
    split; [by left|]. split; [by left|]. split; [|done].
    right. exists d. by simplify_map_eq.
  - eexists (String c y), "", ("-" +:+ String c2 h), "", _.
    split; [reflexivity|]. split; [done|].
    split; [by left|]. split; [|split; [by left | done]].
    right. exists c2, h. by simplify_map_eq.
  - eexists (String c y), "", ("-" +:+ String c2 h), ("-" +:+ d), _.
    split; [reflexivity|]. split; [done|].
    split; [by left|]. split; [|split; [|done]].
    + right. exists c2, h. by simplify_map_eq.
    + right. exists d. by simplify_map_eq.
  - eexists (String c y), ("-" +:+ ds), "", "", _.
    split; [reflexivity|]. split; [done|].
    split; [|split; [by left | split; [by left | done]]].
    right. exists ds. by simplify_map_eq.
  - eexists (String c y), ("-" +:+ ds), "", ("-" +:+ d), _.
    split; [reflexivity|]. split; [done|].
    split; [|split; [by left | split; [|done]]].
    + right. exists ds. by simplify_map_eq.
    + right. exists d. by simplify_map_eq.
  - eexists (String c y), ("-" +:+ ds), ("-" +:+ String c2 h), "", _.
    split; [reflexivity|]. split; [done|].
    split; [|split; [|split; [by left | done]]].
    + right. exists ds. by simplify_map_eq.
    + right. exists c2, h. by simplify_map_eq.
  - eexists (String c y), ("-" +:+ ds), ("-" +:+ String c2 h), ("-" +:+ d), _.
    split; [reflexivity|]. split; [done|].
    split; [|split; [|split; [|done]]].
    + right. exists ds. by simplify_map_eq.
    + right. exists c2, h. by simplify_map_eq.
    + right. exists d. by simplify_map_eq.
Qed.


(** X15. Pattern A matches an output only if the output is, from its
    start to its end: the tag [v<base>] in any letter case; then,
    optionally, a hyphen and a non-empty run of digits (group 1); then,
    optionally, a hyphen, the letter g in either case and a non-empty
    run of hexadecimal digits (group 2); then, optionally, a hyphen and
    the word [dirty] in any letter case (group 3).  A group is set
    exactly when its part is there. *)
Theorem X15_pattern_A_inversion
    (version desc : string) (g : gmap nat string) :
  Sre.re_match true (parse_re1 version) desc = Some g ->
  exists tag commits objsha dirty tail,
    desc = tag +:+ commits +:+ objsha +:+ dirty +:+ tail
    /\ Sre.lower_string tag = Sre.lower_string ("v" +:+ version)
    /\ ((commits = "" /\ g !! 1 = None)
        \/ exists ds, commits = "-" +:+ ds /\ ds <> ""
                      /\ Sre.all_match true Sre.ADigit ds
                      /\ g !! 1 = Some ds)
    /\ ((objsha = "" /\ g !! 2 = None)
        \/ exists c h, objsha = "-" +:+ String c h /\ Sre.lower c = "g"%char
                       /\ h <> "" /\ Sre.all_match true Sre.hex h
                       /\ g !! 2 = Some h)
    /\ ((dirty = "" /\ g !! 3 = None)
        \/ exists d, dirty = "-" +:+ d /\ Sre.lower_string d = "dirty"
                     /\ g !! 3 = Some d)
    /\ Sre.at_end tail = true.
Proof. apply parse_re1_inversion. Qed.

Lemma X15_witness :
  exists tag commits objsha dirty tail,
    "v1.2.0-beta.0-12-gabcdef0-dirty"
    = tag +:+ commits +:+ objsha +:+ dirty +:+ tail
    /\ Sre.lower_string tag = Sre.lower_string ("v" +:+ MYPAINT_VERSION)
    /\ ((commits = ""
         /\ ({[ 1 := "12"; 2 := "abcdef0"; 3 := "dirty" ]} : gmap nat string)
              !! 1 = None)
        \/ exists ds, commits = "-" +:+ ds /\ ds <> ""
                      /\ Sre.all_match true Sre.ADigit ds
                      /\ ({[ 1 := "12"; 2 := "abcdef0"; 3 := "dirty" ]}
                            : gmap nat string) !! 1 = Some ds)
    /\ ((objsha = ""
         /\ ({[ 1 := "12"; 2 := "abcdef0"; 3 := "dirty" ]} : gmap nat string)
              !! 2 = None)
        \/ exists c h, objsha = "-" +:+ String c h /\ Sre.lower c = "g"%char
                       /\ h <> "" /\ Sre.all_match true Sre.hex h
                       /\ ({[ 1 := "12"; 2 := "abcdef0"; 3 := "dirty" ]}
                             : gmap nat string) !! 2 = Some h)
    /\ ((dirty = ""
         /\ ({[ 1 := "12"; 2 := "abcdef0"; 3 := "dirty" ]} : gmap nat string)
              !! 3 = None)
        \/ exists d, dirty = "-" +:+ d /\ Sre.lower_string d = "dirty"
                     /\ ({[ 1 := "12"; 2 := "abcdef0"; 3 := "dirty" ]}
                           : gmap nat string) !! 3 = Some d)
    /\ Sre.at_end tail = true.
Proof.
  apply (X15_pattern_A_inversion MYPAINT_VERSION
           "v1.2.0-beta.0-12-gabcdef0-dirty"
           {[ 1 := "12"; 2 := "abcdef0"; 3 := "dirty" ]}).
  by vm_compute.
Defined.

(** ** Which outputs let the call return *)

Section Accepted.
Implicit Types (s t : string) (c : ascii).

(** Pattern B matches seven or more hexadecimal digits up to the end of
    the subject. *)
Lemma match2_inversion s (g : gmap nat string) :
  Sre.re_match true parse_re2 s = Some g ->
  exists cs tail, s = cs +:+ tail /\ Sre.all_match true Sre.hex cs
                  /\ 7 <= String.length cs /\ Sre.at_end tail = true
                  /\ g !! 1 = Some cs.
Proof.
  unfold Sre.re_match. intros H.
  apply rmatch_sound in H as (p & s' & g' & H & [= ->]).
  unfold parse_re2 in H. cbn [Sre.seq] in H.
  destruct H as (p1 & s1 & g1 & (_ & -> & -> & ->) & H).
  destruct H as (p2 & s2 & g2 & Hgroup & H).
  apply (rsem_group_repeat true 1 7 Sre.hex) in Hgroup
    as (cs & -> & Hall & Hlo & ->).
  destruct H as (p3 & s3 & g3 & (Hend & -> & -> & ->) & (_ & -> & ->)).
  exists cs, s2. by simplify_map_eq.
Qed.

(** What [rstrip] returns does not end in white space. *)
Lemma rstrip_last s :
  forall t c, Py.rstrip s = t +:+ String c "" -> Py.isspace c = false.
Proof.
  induction s as [|a s IH]; intros t c; cbn [Py.rstrip].
  - by destruct t.
  - destruct (Py.rstrip s) as [|b r] eqn:Hr.
    + destruct (Py.isspace a) eqn:Ha; [by destruct t|].
      destruct t as [|a' t]; cbn [String.append]; [by intros [= <-]|].
      by destruct t.
    + destruct t as [|a' t]; cbn [String.append]; [discriminate|].
      intros [= <- Ht]. by apply (IH t c).
Qed.

Lemma strip_last s t c :
  Py.strip s = t +:+ String c "" -> Py.isspace c = false.
Proof. apply rstrip_last. Qed.

End Accepted.

(** X16. A call on a working copy whose [git describe] ran returns a
    triple only if the stripped output starts with the tag [v<base>],
    in any letter case, or is made of seven or more hexadecimal
    digits. *)
Theorem X16_accepted_outputs
    (version gitprefix : string) (e : env) (out : string) (t : versions) :
  release_info e = None -> dot_git e = true -> git_describe e = Some out ->
  ended (_get_versions version gitprefix e) = Return t ->
  (exists tag rest,
     Py.strip out = tag +:+ rest
     /\ Sre.lower_string tag = Sre.lower_string ("v" +:+ version))
  \/ (7 <= String.length (Py.strip out)
      /\ Sre.all_match true Sre.hex (Py.strip out)).
Proof.
  intros Hri Hgit Hout.
  rewrite (get_versions_describe _ _ _ _ Hri Hgit Hout). cbn [ended].
  intros Hret.
  destruct (Sre.re_match true (parse_re1 version) (Py.strip out))
    as [g|] eqn:Hm1.
  - left.
    destruct (parse_re1_inversion _ _ _ Hm1)
      as (tag & commits & objsha & dirty & tail & Hdesc & Htag & _).
    by exists tag, (commits +:+ objsha +:+ dirty +:+ tail).
  - destruct (Sre.re_match true parse_re2 (Py.strip out)) as [g|] eqn:Hm2.
    + right.
      destruct (match2_inversion _ _ Hm2)
        as (cs & tail & Hdesc & Hhex & Hlen & Hend & _).
      destruct tail as [|c [|c' tail]]; [| |discriminate].
      * rewrite append_nil_r in Hdesc. by rewrite Hdesc.
      * cbn [Sre.at_end] in Hend. apply Ascii.eqb_eq in Hend as ->.
        by apply strip_last in Hdesc.
    + by rewrite (parse_describe_none _ _ _ Hm1 Hm2) in Hret.
Qed.

Lemma X16_witness :
  (exists tag rest,
     Py.strip ("v1.2.0-beta.0-12-gabcdef0" +:+ String Py.LF "") = tag +:+ rest
     /\ Sre.lower_string tag = Sre.lower_string ("v" +:+ MYPAINT_VERSION))
  \/ (7 <= String.length
             (Py.strip ("v1.2.0-beta.0-12-gabcdef0" +:+ String Py.LF ""))
      /\ Sre.all_match true Sre.hex
           (Py.strip ("v1.2.0-beta.0-12-gabcdef0" +:+ String Py.LF ""))).
Proof.
  apply (X16_accepted_outputs MYPAINT_VERSION "git"
           (env_git ("v1.2.0-beta.0-12-gabcdef0" +:+ String Py.LF ""))
           ("v1.2.0-beta.0-12-gabcdef0" +:+ String Py.LF "")
           ("1.2.0-beta.0", "1.2.0-beta.0.12", "1.2.0-beta.0.12+git.abcdef0"));
    first [reflexivity | by vm_compute].
Defined.

(** ** The characters of the emitted text *)

Section Printable.
Implicit Types (s t : string) (c x q : ascii).

Lemma has_char_nil x : Py.has_char x "" = false.
Proof. reflexivity. Qed.

Lemma has_char_cons x c s :
  Py.has_char x (String c s) = true -> x = c \/ Py.has_char x s = true.
Proof.
  unfold Py.has_char. cbn [Py.contains]. unfold Py.startswith at 1.
  cbn [String.prefix].
  destruct (ascii_dec x c) as [->|Hne]; [by left|]. by right.
Qed.

Lemma has_char_append x s t :
  Py.has_char x (s +:+ t) = true ->
  Py.has_char x s = true \/ Py.has_char x t = true.
Proof.
  induction s as [|c s IH]; cbn [String.append]; [by right|].
  intros [-> | H]%has_char_cons.
  - left. unfold Py.has_char. cbn [Py.contains]. unfold Py.startswith at 1.
    cbn [String.prefix]. destruct (ascii_dec c c); [by destruct s | done].
  - destruct (IH H) as [Hs | Ht]; [|by right].
    left. unfold Py.has_char in *. cbn [Py.contains]. rewrite Hs.
    apply orb_true_r.
Qed.

Ltac chars H :=
  repeat (apply has_char_cons in H as [-> | H]; [reflexivity|]);
  discriminate H.

(** What [repr] writes for a character is printable. *)
Lemma repr_char_printable q c x :
  q = Py.SQUOTE \/ q = Py.DQUOTE ->
  Py.has_char x (Py.repr_char q c) = true -> Py.in_range 32 126 x = true.
Proof.
  intros [-> | ->]; destruct c as [[] [] [] [] [] [] [] []];
    intros H; chars H.
Qed.

Lemma repr_body_printable q s x :
  q = Py.SQUOTE \/ q = Py.DQUOTE ->
  Py.has_char x (Py.repr_body q s) = true -> Py.in_range 32 126 x = true.
Proof.
  intros Hq. induction s as [|c s IH]; cbn [Py.repr_body]; [done|].
  intros [H | H]%has_char_append; [by apply (repr_char_printable q c) | auto].
Qed.

(** The [repr] of a string is made of printable ASCII characters. *)
Lemma repr_printable s x :
  Py.has_char x (Py.repr s) = true -> Py.in_range 32 126 x = true.
Proof.
  unfold Py.repr. generalize (repr_quote_is_quote s).
  generalize (Py.repr_quote s) as q. cbv zeta. intros q Hq H.
  apply has_char_cons in H as [-> | H];
    [by destruct Hq as [-> | ->]|].
  apply has_char_append in H as [H | H];
    [by apply (repr_body_printable q s)|].
  apply has_char_cons in H as [-> | H];
    [by destruct Hq as [-> | ->] | discriminate H].
Qed.

Lemma line_printable (name : string) s rest x :
  (Py.has_char x name = true -> Py.in_range 32 126 x = true) ->
  (Py.has_char x rest = true -> x = Py.LF \/ Py.in_range 32 126 x = true) ->
  Py.has_char x (name +:+ "=" +:+ Py.repr s +:+ String Py.LF rest) = true ->
  x = Py.LF \/ Py.in_range 32 126 x = true.
Proof.
  intros Hname Hrest [H | H]%has_char_append; [auto|].
  cbn [String.append] in H. apply has_char_cons in H as [-> | H]; [by right|].
  apply has_char_append in H as [H | H]; [right; by apply (repr_printable s)|].
  apply has_char_cons in H as [-> | H]; auto.
Qed.

End Printable.

(** X17. The text written for a triple holds printable ASCII characters
    and line feeds only, whatever bytes the three strings hold: control
    characters, line feeds and bytes outside ASCII of the strings are
    written as escapes. *)
Theorem X17_release_info_text_is_printable (t : versions) (x : ascii) :
  Py.has_char x (release_info_text t) = true ->
  x = Py.LF \/ Py.in_range 32 126 x = true.
Proof.
  destruct t as [[b f] c]. rewrite release_info_text_lines.
  intros H.
  repeat (apply line_printable in H; [exact H | | clear H; intros H]);
    try (clear; intros H;
         repeat (apply has_char_cons in H as [-> | H]; [reflexivity|]);
         discriminate H).
  discriminate H.
Qed.

Lemma X17_witness :
  "'"%char = Py.LF \/ Py.in_range 32 126 "'" = true.
Proof.
  apply (X17_release_info_text_is_printable ("1.2.0", "1.2.0", "1.2.0")).
  by vm_compute.
Defined.
